(** * The bounded restart driver [psi4_optimize]

    A shallow embedding of the only function the notebooks define,
    [psi4_optimize], which wraps [psi4.optimize] in a retry loop.  The
    quantum-chemistry engine is external: it is a parameter of the
    development (the record [Psi4]), threaded as explicit state, and
    every call the driver makes to it is recorded in a chronological
    trace of events.  The process-wide option dictionary is a finite map
    from option names to values.

    What the model takes from the engine: [psi4.optimize] returns or
    raises, and may change the engine's state but not the options; the
    other calls ([set_options], [geometry], [scale], [to_array],
    [get_scratch_filename], [to_file]) and the [logging] calls return.
    Python integers are [Z].  The loop is run with fuel; the fuel of
    [psi4_optimize] always suffices ([psi4_optimize_returns]) and no
    other amount changes the answer ([psi4_optimize_fuel_stable]).

    The two cells of the notebook that the function generalises, the
    one that sets the budget to 2 and the one that restarts once by
    hand, are embedded as [budget_cell] and [restart_cell]. *)

From stdpp Require Import gmap strings list.

Local Open Scope Z_scope.

(** ** Data model *)

(** Values stored in the process-wide option dictionary: the driver
    writes integers ([MAXITER], [GEOM_MAXITER]) and strings ([GUESS]). *)
Inductive OptVal : Type :=
| OInt (n : Z)
| OStr (s : string).

Abbreviation Options := (gmap string OptVal).

(** [psi4.set_options(d)]: every key of the dictionary [d] is written
    into the global options, in the order of the dictionary. *)
Definition set_options_map (kvs : list (string * OptVal)) (opts : Options) : Options :=
  foldl (fun m kv => <[kv.1 := kv.2]> m) opts kvs.

(** Levels of the [logging] calls of the driver. *)
Inductive Level : Type := Info | Warning | Error.

(** The opaque values owned by the engine.  [CErr] are the
    [psi4.driver.ConvergenceError] objects, [EngineErr] every other
    exception the engine raises, and [Engine] is the engine's own
    mutable state (active molecule, scratch files, ...). *)
Class Psi4Types : Type := {
  Energy : Type;
  Wfn : Type;
  History : Type;
  Molecule : Type;
  Matrix : Type;
  NdArray : Type;
  CErr : Type;
  EngineErr : Type;
  Engine : Type
}.

Section Driver.

Context {T : Psi4Types}.

(** Exceptions that can leave [psi4.optimize]. *)
Inductive PyExn : Type :=
| ConvergenceError (cerr : CErr)
| OtherError (err : EngineErr).

(** What one call [psi4.optimize(method, return_wfn=True,
    return_history=True)] does: it returns the triple or raises. *)
Inductive Outcome : Type :=
| Converged (opt_energy : Energy) (wfn : Wfn) (traj : History)
| Raised (exn : PyExn).

(** The third component of the returned tuple: the engine's history, or
    the dictionary [{"coordinates": tuple(np.array(molecule_traj))}]. *)
Inductive Traj : Type :=
| PsiHistory (h : History)
| Coordinates (snapshots : list NdArray).

(** How a call of [psi4_optimize] ends. *)
Inductive Result : Type :=
| Return (opt_energy : Energy) (wfn : Wfn) (traj : Traj)
| Raise (exn : PyExn).

Inductive LogMsg : Type :=
| LogCount (loop_count : Z)
| LogEnergy (opt_energy : Energy)
| LogUnconverged
| LogMaxLoops.

(** The calls the driver makes, in the order it makes them. *)
Inductive Event : Type :=
| EvSetOptions (kvs : list (string * OptVal))
| EvLog (lvl : Level) (msg : LogMsg)
| EvOptimize (method : string) (opts : Options) (out : Outcome)
| EvGeometry (mol : Molecule) (m : Matrix)
| EvToFile (w : Wfn) (filename : string).

(** The engine's interface, as the driver uses it: [psi4.optimize],
    [molecule.geometry()], [Matrix.scale(psi4.constants.bohr2angstroms)],
    [Matrix.to_array()], [cerr.wfn] and [wfn.get_scratch_filename(unit)].
    [wfn.to_file(filename)] only appears as an event of the trace. *)
Record Psi4 : Type := {
  optimize : string -> Options -> Engine -> Outcome * Engine;
  geometry : Molecule -> Engine -> Matrix;
  scale_bohr2angstroms : Matrix -> Matrix;
  to_array : Matrix -> NdArray;
  cerr_wfn : CErr -> Wfn;
  get_scratch_filename : Wfn -> Z -> string
}.

(** The arguments of [psi4_optimize]. *)
Record Args : Type := mkArgs {
  initial_iterations : Z;
  increment_iteration : Z;
  max_loop_count : Z;
  molecule : option Molecule;
  method : string
}.

(** The defaults of the signature. *)
Definition default_args : Args := mkArgs 2 2 20 None "hf/cc-pvdz".

Variable api : Psi4.

(** The local variables of one call together with the process-wide
    state it touches.  [molecule_traj] is bound by the source only when
    a molecule is given; it is read and written only under that test. *)
Record State : Type := mkState {
  options : Options;
  engine : Engine;
  loop_count : Z;
  molecule_traj : list NdArray;
  trace : list Event
}.

Definition emit (ev : Event) (st : State) : State :=
  mkState (options st) (engine st) (loop_count st) (molecule_traj st)
          (trace st ++ [ev]).

Definition set_options (kvs : list (string * OptVal)) (st : State) : State :=
  mkState (set_options_map kvs (options st)) (engine st) (loop_count st)
          (molecule_traj st) (trace st ++ [EvSetOptions kvs]).

Definition set_engine (eng : Engine) (st : State) : State :=
  mkState (options st) eng (loop_count st) (molecule_traj st) (trace st).

Definition set_loop_count (n : Z) (st : State) : State :=
  mkState (options st) (engine st) n (molecule_traj st) (trace st).

(** [bohr_coor = molecule.geometry(); bohr_coor.scale(bohr2angstroms);
    molecule_traj.append(bohr_coor.to_array())] *)
Definition append_geometry (mol : Molecule) (st : State) : State :=
  let bohr_coor := geometry api mol (engine st) in
  mkState (options st) (engine st) (loop_count st)
          (molecule_traj st ++ [to_array api (scale_bohr2angstroms api bohr_coor)])
          (trace st ++ [EvGeometry mol bohr_coor]).

(** One turn of [while unconv is True] either goes round again or leaves
    the loop, by [unconv = False] or by an exception. *)
Inductive Step : Type :=
| Continue (st : State)
| Done (r : Result) (st : State).

Section Call.

Variable args : Args.

(** The code after the loop. *)
Definition after_loop (opt_energy : Energy) (wfn : Wfn) (traj : History)
    (st : State) : Result :=
  match molecule args with
  | Some _ => Return opt_energy wfn (Coordinates (molecule_traj st))
  | None => Return opt_energy wfn (PsiHistory traj)
  end.

(** The dictionaries passed to [psi4.set_options], before the loop and
    in the handler. *)
Definition initial_options : list (string * OptVal) :=
  [("MAXITER"%string, OInt (initial_iterations args));
   ("GEOM_MAXITER"%string, OInt (initial_iterations args))].

Definition restart_options : list (string * OptVal) :=
  [("GUESS"%string, OStr "read");
   ("MAXITER"%string, OInt (initial_iterations args + increment_iteration args));
   ("GEOM_MAXITER"%string, OInt (initial_iterations args + increment_iteration args))].

(** The [try] block up to the call: [log.info] of the count, then
    [psi4.optimize], which may change the engine's state. *)
Definition attempt (st : State) : Outcome * State :=
  let st := emit (EvLog Info (LogCount (loop_count st))) st in
  let (out, eng) := optimize api (method args) (options st) (engine st) in
  (out, emit (EvOptimize (method args) (options st) out) (set_engine eng st)).

(** The [except psi4.driver.ConvergenceError as cerr] handler, up to
    [loop_count = loop_count + 1]. *)
Definition recover (cerr : CErr) (st : State) : State :=
  let st := emit (EvLog Warning LogUnconverged) st in
  let st := match molecule args with
            | Some mol => append_geometry mol st
            | None => st
            end in
  let unconv_wfn := cerr_wfn api cerr in
  let st := emit (EvToFile unconv_wfn (get_scratch_filename api unconv_wfn 180)) st in
  let st := set_options restart_options st in
  set_loop_count (loop_count st + 1) st.

(** The body of the loop: the [try] block, and the handler with its
    test of [max_loop_count]; any other exception leaves the function. *)
Definition body (st : State) : Step :=
  let (out, st) := attempt st in
  match out with
  | Converged opt_energy wfn traj =>
      let st := emit (EvLog Info (LogEnergy opt_energy)) st in
      Done (after_loop opt_energy wfn traj st) st
  | Raised (ConvergenceError cerr) =>
      let st := recover cerr st in
      if max_loop_count args <=? loop_count st
      then Done (Raise (ConvergenceError cerr)) (emit (EvLog Error LogMaxLoops) st)
      else Continue st
  | Raised exn => Done (Raise exn) st
  end.

(** The loop, with fuel: [None] only when the fuel runs out. *)
Fixpoint loop (fuel : nat) (st : State) : option (Result * State) :=
  match fuel with
  | O => None
  | S fuel' =>
      match body st with
      | Continue st' => loop fuel' st'
      | Done r st' => Some (r, st')
      end
  end.

(** The state at the first test of the loop: the options are set from
    [initial_iterations], [loop_count = 0], [molecule_traj = []]. *)
Definition init_state (opts : Options) (eng : Engine) : State :=
  set_options initial_options (mkState opts eng 0 [] []).

Definition psi4_optimize_fuel (fuel : nat) (opts : Options) (eng : Engine)
    : option (Result * State) :=
  loop fuel (init_state opts eng).

(** Fuel that always suffices (see [loop_enough_fuel]). *)
Definition enough_fuel : nat := S (Z.to_nat (max_loop_count args)).

Definition psi4_optimize (opts : Options) (eng : Engine)
    : option (Result * State) :=
  psi4_optimize_fuel enough_fuel opts eng.

(** The states at the test of the loop that a call can reach. *)
Inductive reachable (opts : Options) (eng : Engine) : State -> Prop :=
| reachable_init : reachable opts eng (init_state opts eng)
| reachable_step st st' :
    reachable opts eng st -> body st = Continue st' -> reachable opts eng st'.

End Call.

(** ** Reading the trace *)

(** The outcomes of the calls of [psi4.optimize], oldest first. *)
Definition outcomes (tr : list Event) : list Outcome :=
  omap (fun ev => match ev with EvOptimize _ _ out => Some out | _ => None end) tr.

Definition invocations (tr : list Event) : nat := length (outcomes tr).

(** The convergence errors the engine raised, oldest first. *)
Definition conv_errors (tr : list Event) : list CErr :=
  omap (fun ev => match ev with
                  | EvOptimize _ _ (Raised (ConvergenceError c)) => Some c
                  | _ => None
                  end) tr.

Definition failed_attempts (tr : list Event) : nat := length (conv_errors tr).

(** The option dictionary in effect at each call of [psi4.optimize]. *)
Definition options_seen (tr : list Event) : list Options :=
  omap (fun ev => match ev with EvOptimize _ opts _ => Some opts | _ => None end) tr.

(** The iteration budget in effect at each call of [psi4.optimize]. *)
Definition budgets (tr : list Event) : list (option OptVal) :=
  map (fun opts : Options => opts !! "MAXITER"%string) (options_seen tr).

(** The calls of [to_file]: the wavefunction written and the filename. *)
Definition to_file_calls (tr : list Event) : list (Wfn * string) :=
  omap (fun ev => match ev with EvToFile w f => Some (w, f) | _ => None end) tr.

(** The results of the calls of [molecule.geometry()]. *)
Definition geometry_calls (tr : list Event) : list Matrix :=
  omap (fun ev => match ev with EvGeometry _ m => Some m | _ => None end) tr.

(** The dictionaries passed to [psi4.set_options]. *)
Definition set_options_calls (tr : list Event) : list (list (string * OptVal)) :=
  omap (fun ev => match ev with EvSetOptions kvs => Some kvs | _ => None end) tr.

(** The array stored for a geometry read from the molecule. *)
Definition snapshot (m : Matrix) : NdArray :=
  to_array api (scale_bohr2angstroms api m).

(** ** Invariants of the loop *)

Section Invariants.

Variable args : Args.
Variable opts : Options.

(** The options installed in the process once [k] attempts have failed:
    the handler writes the same dictionary every time. *)
Definition options_at (k : nat) : Options :=
  match k with
  | O => set_options_map (initial_options args) opts
  | S _ => set_options_map (restart_options args)
             (set_options_map (initial_options args) opts)
  end.

(** What the state and the trace say of each other at any point between
    two turns of the loop and when the call ends. *)
Record effects_ok (st : State) : Prop := {
  count_ok : loop_count st = Z.of_nat (failed_attempts (trace st));
  to_file_ok :
    to_file_calls (trace st)
    = map (fun c => (cerr_wfn api c,
                     get_scratch_filename api (cerr_wfn api c) 180))
          (conv_errors (trace st));
  traj_ok : molecule_traj st = map snapshot (geometry_calls (trace st));
  geometry_ok :
    length (geometry_calls (trace st))
    = match molecule args with
      | Some _ => failed_attempts (trace st)
      | None => O
      end;
  set_options_ok :
    set_options_calls (trace st)
    = initial_options args
      :: replicate (failed_attempts (trace st)) (restart_options args);
  options_ok : options st = options_at (failed_attempts (trace st));
  seen_ok :
    options_seen (trace st) = map options_at (seq 0 (invocations (trace st)))
}.

(** At the test of the loop every call made so far has failed to
    converge, and the counter is below the ceiling unless it is zero. *)
Record head_ok (st : State) : Prop := {
  all_failed :
    outcomes (trace st)
    = map (fun c => Raised (ConvergenceError c)) (conv_errors (trace st));
  below_ceiling : loop_count st = 0 \/ loop_count st < max_loop_count args;
  head_effects : effects_ok st
}.

End Invariants.

(** ** The engine along a run *)

Section Calls.

Variable args : Args.
Variable opts : Options.
Variable eng : Engine.

(** The state of the engine before the call number [k] of a run whose
    earlier calls have all failed to converge: each call is made with
    the method of the arguments, under the options installed by then,
    on the state the call before it left. *)
Fixpoint engine_at (k : nat) : Engine :=
  match k with
  | O => eng
  | S j => (optimize api (method args) (options_at args opts j) (engine_at j)).2
  end.

(** What the engine answers to that call. *)
Definition outcome_at (k : nat) : Outcome :=
  (optimize api (method args) (options_at args opts k) (engine_at k)).1.

(** The events of the turn of the loop that makes the call number [k]:
    the log of the count and the call, then what the source does with
    its outcome.  After a convergence error the geometry is read from
    the state the call left, and the error log closes the turn when the
    counter, now [k + 1], has reached the ceiling. *)
Definition turn_events (k : nat) : list Event :=
  [EvLog Info (LogCount (Z.of_nat k));
   EvOptimize (method args) (options_at args opts k) (outcome_at k)] ++
  match outcome_at k with
  | Converged e _ _ => [EvLog Info (LogEnergy e)]
  | Raised (ConvergenceError c) =>
      [EvLog Warning LogUnconverged] ++
      match molecule args with
      | Some mol => [EvGeometry mol (geometry api mol (engine_at (S k)))]
      | None => []
      end ++
      [EvToFile (cerr_wfn api c) (get_scratch_filename api (cerr_wfn api c) 180);
       EvSetOptions (restart_options args)] ++
      (if max_loop_count args <=? Z.of_nat (S k)
       then [EvLog Error LogMaxLoops]
       else [])
  | Raised (OtherError _) => []
  end.

End Calls.

(** The [logging] calls, oldest first. *)
Definition log_calls (tr : list Event) : list (Level * LogMsg) :=
  omap (fun ev => match ev with EvLog lvl msg => Some (lvl, msg) | _ => None end) tr.

(** ** The cells that [psi4_optimize] generalises

    The notebook first restarts an optimization by hand, in two cells:
    one sets [MAXITER] and [GEOM_MAXITER] to 2, the next one tries,
    and on a convergence error writes the wavefunction, installs
    [GUESS = "read"] with a budget of 100 and tries once more. *)

(** The process-wide state and the globals of the notebook that these
    cells touch; a global is [None] while it is unbound. *)
Record Notebook : Type := mkNotebook {
  nb_options : Options;
  nb_engine : Engine;
  opt_energy : option Energy;
  unconv : option bool;
  unconv_wfn : option Wfn;
  nb_trace : list Event
}.

(** What can leave a cell: an exception of the engine, or the
    [NameError] of Python for a global that is not bound. *)
Inductive CellExn : Type :=
| EngineRaised (exn : PyExn)
| NameError (name : string).

(** [psi4.set_options({"MAXITER": 2, "GEOM_MAXITER": 2})] *)
Definition budget_cell_options : list (string * OptVal) :=
  [("MAXITER"%string, OInt 2); ("GEOM_MAXITER"%string, OInt 2)].

Definition budget_cell (nb : Notebook) : Notebook :=
  mkNotebook (set_options_map budget_cell_options (nb_options nb)) (nb_engine nb)
             (opt_energy nb) (unconv nb) (unconv_wfn nb)
             (nb_trace nb ++ [EvSetOptions budget_cell_options]).

(** The dictionary of the handler of the cell. *)
Definition restart_cell_options : list (string * OptVal) :=
  [("GUESS"%string, OStr "read");
   ("MAXITER"%string, OInt 100);
   ("GEOM_MAXITER"%string, OInt 100)].

(** The cell with the [try].  [psi4.optimize("hf/cc-pvdz")] is the call
    of [psi4_optimize] without [return_wfn] and [return_history]: it
    returns the energy alone.  In the handler its result is not bound,
    and the [log.info] that follows reads the global [opt_energy].
    The result is [None] when the cell runs to its end. *)
Definition restart_cell (nb : Notebook) : option CellExn * Notebook :=
  let (out, eng) := optimize api "hf/cc-pvdz" (nb_options nb) (nb_engine nb) in
  let tr := nb_trace nb ++ [EvOptimize "hf/cc-pvdz" (nb_options nb) out] in
  match out with
  | Converged e _ _ =>
      (None,
       mkNotebook (nb_options nb) eng (Some e) (Some false) (unconv_wfn nb)
                  (tr ++ [EvLog Info (LogEnergy e)]))
  | Raised (ConvergenceError cerr) =>
      let w := cerr_wfn api cerr in
      let tr := tr ++ [EvLog Warning LogUnconverged;
                       EvToFile w (get_scratch_filename api w 180);
                       EvSetOptions restart_cell_options] in
      let opts := set_options_map restart_cell_options (nb_options nb) in
      let (out', eng') := optimize api "hf/cc-pvdz" opts eng in
      let tr := tr ++ [EvOptimize "hf/cc-pvdz" opts out'] in
      match out' with
      | Converged _ _ _ =>
          match opt_energy nb with
          | Some e =>
              (None,
               mkNotebook opts eng' (Some e) (unconv nb) (Some w)
                          (tr ++ [EvLog Info (LogEnergy e)]))
          | None =>
              (Some (NameError "opt_energy"),
               mkNotebook opts eng' None (unconv nb) (Some w) tr)
          end
      | Raised exn =>
          (Some (EngineRaised exn),
           mkNotebook opts eng' (opt_energy nb) (unconv nb) (Some w) tr)
      end
  | Raised exn =>
      (Some (EngineRaised exn),
       mkNotebook (nb_options nb) eng (opt_energy nb) (unconv nb) (unconv_wfn nb) tr)
  end.

(** The call of [psi4_optimize] that does what the two cells do: the
    budget 2, then 2 + 98, one restart, no molecule. *)
Definition cell_args : Args := mkArgs 2 98 2 None "hf/cc-pvdz".

End Driver.

(** ** Stub engines

    A scripted engine for running the driver on concrete inputs: its
    state is the number of calls of [optimize] made so far, the script
    gives the outcome of each call, the geometry of the molecule is that
    number of calls, and the scratch filename depends on the unit only. *)
Module Stub.

#[global] Instance types : Psi4Types := {|
  Energy := Z;
  Wfn := nat;
  History := nat;
  Molecule := unit;
  Matrix := nat;
  NdArray := nat;
  CErr := nat;
  EngineErr := string;
  Engine := nat
|}.

Definition scripted (script : nat -> Outcome) : Psi4 := {|
  optimize := fun _ _ n => (script n, S n);
  geometry := fun _ n => n;
  scale_bohr2angstroms := fun m => m;
  to_array := fun m => m;
  cerr_wfn := fun c => c;
  get_scratch_filename := fun _ u => if u =? 180 then "psi.180"%string else "psi"%string
|}.

(** Call [n] raises the convergence error number [n]. *)
Definition never_converges : nat -> Outcome :=
  fun n => Raised (ConvergenceError n).

(** The first [k] calls fail to converge, the next one converges. *)
Definition converges_after (k : nat) : nat -> Outcome :=
  fun n => if (n <? k)%nat then Raised (ConvergenceError n)
           else Converged (-76) n n.

(** The first [k] calls fail to converge, the next one raises another
    error of the engine. *)
Definition crashes_after (k : nat) : nat -> Outcome :=
  fun n => if (n <? k)%nat then Raised (ConvergenceError n)
           else Raised (OtherError "ValidationError"%string).

(** The call of the notebook, with the budget and ceiling it uses. *)
Definition notebook_args (M : Z) (mol : option unit) : Args :=
  mkArgs 10 10 M mol "hf/cc-pvdz".

End Stub.


(** ** The loop: termination and invariants *)

Section Loop.

Context {T : Psi4Types} (api : Psi4) (args : Args).

Lemma attempt_fields st :
  let out := (optimize api (method args) (options st) (engine st)).1 in
  (attempt api args st).1 = out /\
  options (attempt api args st).2 = options st /\
  engine (attempt api args st).2
    = (optimize api (method args) (options st) (engine st)).2 /\
  loop_count (attempt api args st).2 = loop_count st /\
  molecule_traj (attempt api args st).2 = molecule_traj st /\
  trace (attempt api args st).2
    = trace st ++ [EvLog Info (LogCount (loop_count st));
                   EvOptimize (method args) (options st) out].
Proof.
  unfold attempt; simpl.
  destruct (optimize api (method args) (options st) (engine st)) as [out eng].
  simpl. rewrite <- app_assoc. tauto.
Qed.

Lemma recover_fields c st :
  options (recover api args c st) = set_options_map (restart_options args) (options st) /\
  engine (recover api args c st) = engine st /\
  loop_count (recover api args c st) = loop_count st + 1 /\
  molecule_traj (recover api args c st)
    = molecule_traj st ++
      match molecule args with
      | Some mol => [snapshot api (geometry api mol (engine st))]
      | None => []
      end /\
  trace (recover api args c st)
    = trace st ++ [EvLog Warning LogUnconverged] ++
      match molecule args with
      | Some mol => [EvGeometry mol (geometry api mol (engine st))]
      | None => []
      end ++
      [EvToFile (cerr_wfn api c) (get_scratch_filename api (cerr_wfn api c) 180);
       EvSetOptions (restart_options args)].
Proof.
  unfold recover, snapshot.
  destruct (molecule args) as [mol|]; simpl;
    rewrite <- ?app_assoc, ?app_nil_r; simpl; tauto.
Qed.

(** A turn of the loop goes round again only after a convergence error
    that leaves the counter below the ceiling. *)
Lemma body_continue_inv st st' :
  body api args st = Continue st' ->
  exists c,
    (attempt api args st).1 = Raised (ConvergenceError c) /\
    st' = recover api args c (attempt api args st).2 /\
    loop_count st + 1 < max_loop_count args.
Proof.
  unfold body. pose proof (attempt_fields st) as (_ & _ & _ & Hn & _).
  destruct (attempt api args st) as [[e w h|[c|x]] st1]; cbn [fst snd] in *;
    try discriminate.
  pose proof (recover_fields c st1) as (_ & _ & Hc & _).
  destruct (max_loop_count args <=? loop_count (recover api args c st1)) eqn:Hle;
    try discriminate.
  intros [= <-]. exists c. repeat split. apply Z.leb_gt in Hle. lia.
Qed.

(** The three ways a turn of the loop leaves it. *)
Lemma body_done_inv st r st' :
  body api args st = Done r st' ->
  let st1 := (attempt api args st).2 in
  (exists e w h,
      (attempt api args st).1 = Converged e w h /\
      r = after_loop args e w h st1 /\
      st' = emit (EvLog Info (LogEnergy e)) st1) \/
  (exists x,
      (attempt api args st).1 = Raised (OtherError x) /\
      r = Raise (OtherError x) /\ st' = st1) \/
  (exists c,
      (attempt api args st).1 = Raised (ConvergenceError c) /\
      r = Raise (ConvergenceError c) /\
      st' = emit (EvLog Error LogMaxLoops) (recover api args c st1) /\
      max_loop_count args <= loop_count st + 1).
Proof.
  unfold body. pose proof (attempt_fields st) as (_ & _ & _ & Hn & _).
  destruct (attempt api args st) as [[e w h|[c|x]] st1]; cbn [fst snd] in *.
  - intros [= <- <-]. left. exists e, w, h. tauto.
  - pose proof (recover_fields c st1) as (_ & _ & Hc & _).
    destruct (max_loop_count args <=? loop_count (recover api args c st1)) eqn:Hle;
      try discriminate.
    intros [= <- <-]. right; right. exists c. repeat split.
    apply Z.leb_le in Hle. lia.
  - intros [= <- <-]. right; left. exists x. tauto.
Qed.

(** More fuel does not change a result. *)
Lemma loop_fuel_mono fuel fuel' st x :
  loop api args fuel st = Some x -> (fuel <= fuel')%nat ->
  loop api args fuel' st = Some x.
Proof.
  revert fuel' st. induction fuel as [|fuel IH]; intros fuel' st; [discriminate|].
  destruct fuel' as [|fuel']; [lia|]. simpl.
  destruct (body api args st); [|tauto].
  intros H Hle. apply IH; [exact H | lia].
Qed.

(** The loop ends within [max_loop_count - loop_count] turns, and within
    one turn when that is not positive. *)
Lemma loop_enough_fuel fuel st :
  (0 < fuel)%nat -> max_loop_count args - loop_count st <= Z.of_nat fuel ->
  exists r st', loop api args fuel st = Some (r, st').
Proof.
  revert st. induction fuel as [|fuel IH]; intros st Hpos Hfuel; [lia|].
  simpl. destruct (body api args st) as [st1|r st1] eqn:Hbody; [|eauto].
  apply body_continue_inv in Hbody as (c & _ & -> & Hlt).
  pose proof (recover_fields c (attempt api args st).2) as (_ & _ & Hc & _).
  pose proof (attempt_fields st) as (_ & _ & _ & Hn & _).
  apply IH; lia.
Qed.

Lemma psi4_optimize_returns opts eng :
  exists r st, psi4_optimize api args opts eng = Some (r, st).
Proof.
  apply loop_enough_fuel; unfold enough_fuel; simpl; lia.
Qed.

(** Any fuel that lets the model answer gives the answer of
    [psi4_optimize]. *)
Lemma psi4_optimize_fuel_stable fuel opts eng x :
  psi4_optimize_fuel api args fuel opts eng = Some x ->
  psi4_optimize api args opts eng = Some x.
Proof.
  intros H. destruct (psi4_optimize_returns opts eng) as (r & st & Hr).
  rewrite Hr. unfold psi4_optimize, psi4_optimize_fuel in *.
  destruct (Nat.le_ge_cases fuel (enough_fuel args)) as [Hle|Hle].
  - rewrite (loop_fuel_mono _ _ _ _ H Hle) in Hr. congruence.
  - rewrite (loop_fuel_mono _ _ _ _ Hr Hle) in H. congruence.
Qed.

(** The loop leaves from a state reachable from the one it starts in. *)
Lemma loop_leaves_reachable opts eng fuel st r st' :
  reachable api args opts eng st -> loop api args fuel st = Some (r, st') ->
  exists s, reachable api args opts eng s /\ body api args s = Done r st'.
Proof.
  revert st. induction fuel as [|fuel IH]; intros st Hst; [discriminate|].
  simpl. destruct (body api args st) as [st1|r1 st1] eqn:Hbody.
  - apply IH. eapply reachable_step; eauto.
  - intros [= <- <-]. eauto.
Qed.

(** Every call ends, and ends by leaving the loop from a reachable
    state. *)
Lemma psi4_optimize_leaves opts eng :
  exists r st s,
    psi4_optimize api args opts eng = Some (r, st) /\
    reachable api args opts eng s /\ body api args s = Done r st.
Proof.
  destruct (psi4_optimize_returns opts eng) as (r & st & Hr).
  exists r, st.
  destruct (loop_leaves_reachable opts eng _ _ _ _ (reachable_init _ _ _ _) Hr)
    as (s & Hs & Hb).
  eauto.
Qed.

End Loop.

(** ** The trace and the state along a run *)

Section Run.

Context {T : Psi4Types} (api : Psi4) (args : Args) (opts : Options) (eng : Engine).

Lemma restart_options_idem (m : Options) :
  set_options_map (restart_options args) (set_options_map (restart_options args) m)
  = set_options_map (restart_options args) m.
Proof.
  apply map_eq; intros k. unfold set_options_map, restart_options; simpl.
  rewrite !lookup_insert. repeat case_decide; congruence.
Qed.

Lemma options_at_succ k :
  set_options_map (restart_options args) (options_at args opts k)
  = options_at args opts (S k).
Proof.
  destruct k as [|k]; simpl; [reflexivity|apply restart_options_idem].
Qed.

(** The events of a turn that fails to converge. *)
Lemma failed_turn_fields st c :
  (attempt api args st).1 = Raised (ConvergenceError c) ->
  let st' := recover api args c (attempt api args st).2 in
  let eng' := (optimize api (method args) (options st) (engine st)).2 in
  options st' = set_options_map (restart_options args) (options st) /\
  loop_count st' = loop_count st + 1 /\
  molecule_traj st'
    = molecule_traj st ++
      match molecule args with
      | Some mol => [snapshot api (geometry api mol eng')]
      | None => []
      end /\
  trace st'
    = trace st ++
      [EvLog Info (LogCount (loop_count st));
       EvOptimize (method args) (options st) (Raised (ConvergenceError c));
       EvLog Warning LogUnconverged] ++
      match molecule args with
      | Some mol => [EvGeometry mol (geometry api mol eng')]
      | None => []
      end ++
      [EvToFile (cerr_wfn api c) (get_scratch_filename api (cerr_wfn api c) 180);
       EvSetOptions (restart_options args)].
Proof.
  intros Hout.
  pose proof (attempt_fields api args st) as (Ho & Hopts & Heng & Hn & Htraj & Htr).
  pose proof (recover_fields api args c (attempt api args st).2)
    as (Ho' & _ & Hn' & Htraj' & Htr').
  cbn zeta in *. rewrite Ho, Hout in *.
  rewrite Ho', Hn', Htraj', Htr', Hopts, Heng, Hn, Htraj, Htr.
  rewrite <- !app_assoc. tauto.
Qed.

(** A failed turn keeps [effects_ok], from a state where every earlier
    call has failed. *)
Lemma failed_turn_effects st c :
  head_ok api args opts st ->
  (attempt api args st).1 = Raised (ConvergenceError c) ->
  let st' := recover api args c (attempt api args st).2 in
  effects_ok api args opts st' /\
  outcomes (trace st')
  = map (fun c => Raised (ConvergenceError c)) (conv_errors (trace st')).
Proof.
  intros [Hall Hbelow [Hcount Hfile Htraj Hgeo Hset Hopt Hseen]] Hout.
  destruct (failed_turn_fields st c Hout) as (Ho & Hn & Hmt & Htr).
  cbn zeta.
  set (st' := recover api args c (attempt api args st).2) in *.
  assert (Hinv : invocations (trace st) = failed_attempts (trace st)).
  { unfold invocations, failed_attempts. rewrite Hall. apply length_map. }
  assert (Hfailed : failed_attempts (trace st') = S (failed_attempts (trace st))).
  { unfold failed_attempts, conv_errors. rewrite Htr, !omap_app, !length_app.
    destruct (molecule args); simpl; lia. }
  split; [split|].
  - rewrite Hn, Hfailed, Hcount. lia.
  - unfold to_file_calls, conv_errors in *. rewrite Htr, !omap_app, Hfile, map_app.
    destruct (molecule args); reflexivity.
  - unfold geometry_calls in *. rewrite Hmt, Htr, !omap_app, Htraj, map_app.
    destruct (molecule args); reflexivity.
  - rewrite Hfailed. unfold geometry_calls in *.
    rewrite Htr, !omap_app, !length_app, Hgeo.
    destruct (molecule args); simpl; lia.
  - rewrite Hfailed. unfold set_options_calls in *. rewrite Htr, !omap_app, Hset.
    destruct (molecule args); simpl; f_equal; symmetry; apply replicate_cons_app.
  - rewrite Hfailed, Ho, Hopt. apply options_at_succ.
  - unfold invocations, outcomes, options_seen in *.
    rewrite Htr, !omap_app, !length_app, Hseen.
    replace (length _ + _)%nat with (S (invocations (trace st)))
      by (unfold invocations, outcomes; destruct (molecule args); simpl; lia).
    rewrite seq_S, map_app. unfold invocations, outcomes in *.
    rewrite Hopt, Hinv. destruct (molecule args); reflexivity.
  - unfold outcomes, conv_errors in *. rewrite Htr, !omap_app, Hall, map_app.
    destruct (molecule args); reflexivity.
Qed.

Lemma init_head_ok : head_ok api args opts (init_state args opts eng).
Proof.
  split; [reflexivity | left; reflexivity | split; try reflexivity].
  simpl. destruct (molecule args); reflexivity.
Qed.

(** Every state at the test of the loop satisfies [head_ok]. *)
Lemma reachable_head_ok st :
  reachable api args opts eng st -> head_ok api args opts st.
Proof.
  induction 1 as [|st st' Hst IH Hbody]; [apply init_head_ok|].
  apply body_continue_inv in Hbody as (c & Hout & -> & Hlt).
  destruct (failed_turn_effects st c IH Hout) as [Heff Hall].
  split; [exact Hall| |exact Heff].
  right. destruct (failed_turn_fields st c Hout) as (_ & -> & _). lia.
Qed.

(** Events that are neither a failed call, a geometry read, a write nor
    an option update leave [effects_ok] alone, given the options seen. *)
Lemma effects_ok_quiet st st' (evs : list Event) :
  effects_ok api args opts st ->
  options st' = options st -> loop_count st' = loop_count st ->
  molecule_traj st' = molecule_traj st ->
  trace st' = trace st ++ evs ->
  conv_errors evs = [] -> to_file_calls evs = [] -> geometry_calls evs = [] ->
  set_options_calls evs = [] ->
  options_seen (trace st')
  = map (options_at args opts) (seq 0 (invocations (trace st'))) ->
  effects_ok api args opts st'.
Proof.
  intros [Hcount Hfile Htraj Hgeo Hset Hopt _] Ho Hn Hmt Htr Hc Hf Hg Hs Hseen.
  assert (Hfailed : failed_attempts (trace st') = failed_attempts (trace st)).
  { unfold failed_attempts, conv_errors in *.
    rewrite Htr, omap_app, Hc, app_nil_r. reflexivity. }
  assert (Hce : conv_errors (trace st') = conv_errors (trace st)).
  { unfold conv_errors in *. rewrite Htr, omap_app, Hc, app_nil_r. reflexivity. }
  assert (Hge : geometry_calls (trace st') = geometry_calls (trace st)).
  { unfold geometry_calls in *. rewrite Htr, omap_app, Hg, app_nil_r. reflexivity. }
  split; rewrite ?Hfailed, ?Hce, ?Hge, ?Ho, ?Hn, ?Hmt; try assumption.
  - unfold to_file_calls in *. rewrite Htr, omap_app, Hf, app_nil_r. exact Hfile.
  - unfold set_options_calls in *. rewrite Htr, omap_app, Hs, app_nil_r. exact Hset.
Qed.

(** A call that does not raise a convergence error extends the options
    seen by the options in effect. *)
Lemma seen_after_call st out (evs : list Event) :
  head_ok api args opts st -> options_seen evs = [] -> outcomes evs = [] ->
  let tr := trace st ++ [EvLog Info (LogCount (loop_count st));
                         EvOptimize (method args) (options st) out] ++ evs in
  options_seen tr = map (options_at args opts) (seq 0 (invocations tr)) /\
  outcomes tr = outcomes (trace st) ++ [out].
Proof.
  intros [Hall _ [_ _ _ _ _ Hopt Hseen]] Hs Ho. cbn zeta.
  assert (Hinv : invocations (trace st) = failed_attempts (trace st)).
  { unfold invocations, failed_attempts. rewrite Hall. apply length_map. }
  unfold invocations, outcomes, options_seen in *.
  rewrite !omap_app, Hs, Ho, Hseen, !length_app, !app_nil_r. simpl.
  split; [|reflexivity].
  rewrite Nat.add_1_r, seq_S, map_app. simpl. rewrite Hopt, Hinv. reflexivity.
Qed.

(** How a call can end, read from the last turn of its loop. *)
Lemma done_turn s r st :
  head_ok api args opts s -> body api args s = Done r st ->
  effects_ok api args opts st /\
  exists out,
    out = (optimize api (method args) (options s) (engine s)).1 /\
    outcomes (trace st) = outcomes (trace s) ++ [out] /\
    match out with
    | Converged e w h =>
        r = after_loop args e w h st /\
        conv_errors (trace st) = conv_errors (trace s) /\
        trace st = trace s ++ [EvLog Info (LogCount (loop_count s));
                               EvOptimize (method args) (options s) out;
                               EvLog Info (LogEnergy e)]
    | Raised (ConvergenceError c) =>
        r = Raise (ConvergenceError c) /\
        conv_errors (trace st) = conv_errors (trace s) ++ [c] /\
        max_loop_count args <= loop_count st /\
        exists pre, trace st = pre ++ [EvLog Error LogMaxLoops]
    | Raised (OtherError x) =>
        r = Raise (OtherError x) /\
        conv_errors (trace st) = conv_errors (trace s) /\
        trace st = trace s ++ [EvLog Info (LogCount (loop_count s));
                               EvOptimize (method args) (options s) out]
    end.
Proof.
  intros Hs Hbody.
  pose proof (attempt_fields api args s) as (Ho & Hopts & Heng & Hn & Htraj & Htr).
  cbn zeta in *.
  apply body_done_inv in Hbody
    as [(e & w & h & Hout & -> & ->)|[(x & Hout & -> & ->)|(c & Hout & -> & -> & Hle)]];
    cbn zeta in *; rewrite Hout in Ho; rewrite <- Ho in *.
  - destruct (seen_after_call s (Converged e w h) [EvLog Info (LogEnergy e)] Hs)
      as [Hseen Houts]; [reflexivity..|].
    assert (Htr' : trace (emit (EvLog Info (LogEnergy e)) (attempt api args s).2)
                   = trace s ++ [EvLog Info (LogCount (loop_count s));
                                 EvOptimize (method args) (options s) (Converged e w h);
                                 EvLog Info (LogEnergy e)]).
    { simpl. rewrite Htr, <- app_assoc. reflexivity. }
    split.
    + eapply effects_ok_quiet; [apply Hs|..|rewrite Htr'; exact Hseen]; eauto.
    + exists (Converged e w h). rewrite Htr'. repeat split; [exact Houts|].
      unfold conv_errors. rewrite omap_app. apply app_nil_r.
  - destruct (seen_after_call s (Raised (OtherError x)) [] Hs)
      as [Hseen Houts]; [reflexivity..|]. rewrite app_nil_r in *.
    split.
    + eapply effects_ok_quiet; [apply Hs|..|rewrite Htr; exact Hseen]; eauto.
    + exists (Raised (OtherError x)). rewrite Htr.
      repeat split; [exact Houts|].
      unfold conv_errors. rewrite omap_app. apply app_nil_r.
  - destruct (failed_turn_effects s c Hs Hout) as [Heff Hall].
    destruct (failed_turn_fields s c Hout) as (Ho' & Hn' & Hmt' & Htr').
    cbn zeta in *.
    set (st' := recover api args c (attempt api args s).2) in *.
    assert (Hce : conv_errors (trace st') = conv_errors (trace s) ++ [c]).
    { unfold conv_errors. rewrite Htr', !omap_app.
      destruct (molecule args); simpl; rewrite ?app_nil_r; reflexivity. }
    assert (Hos : outcomes (trace st')
                  = outcomes (trace s) ++ [Raised (ConvergenceError c)]).
    { unfold outcomes. rewrite Htr', !omap_app.
      destruct (molecule args); simpl; rewrite ?app_nil_r; reflexivity. }
    clearbody st'.
    split.
    + eapply effects_ok_quiet; [exact Heff|..]; try reflexivity.
      destruct Heff as [_ _ _ _ _ _ Hseen].
      change (trace (emit (EvLog Error LogMaxLoops) st'))
        with (trace st' ++ [EvLog Error LogMaxLoops]).
      unfold invocations, outcomes, options_seen in *.
      rewrite !omap_app. simpl. rewrite !app_nil_r. exact Hseen.
    + exists (Raised (ConvergenceError c)).
      change (trace (emit (EvLog Error LogMaxLoops) st'))
        with (trace st' ++ [EvLog Error LogMaxLoops]).
      change (loop_count (emit (EvLog Error LogMaxLoops) st'))
        with (loop_count st').
      repeat split.
      * rewrite <- Hos. unfold outcomes. rewrite omap_app. apply app_nil_r.
      * unfold conv_errors in *. rewrite omap_app. simpl.
        rewrite app_nil_r. exact Hce.
      * lia.
      * eauto.
Qed.

End Run.

(** ** Properties of [psi4_optimize] *)

Section Properties.

Context {T : Psi4Types} (api : Psi4) (args : Args) (opts : Options) (eng : Engine).

(** The end of a run, with the invariant of the state its last turn
    started in and the description of that turn. *)
Lemma run_ends :
  exists r st s,
    psi4_optimize api args opts eng = Some (r, st) /\
    reachable api args opts eng s /\
    body api args s = Done r st /\
    head_ok api args opts s /\
    effects_ok api args opts st.
Proof.
  destruct (psi4_optimize_leaves api args opts eng) as (r & st & s & Hrun & Hs & Hbody).
  pose proof (reachable_head_ok api args opts eng s Hs) as Hhead.
  destruct (done_turn api args opts s r st Hhead Hbody) as [Heff _].
  exists r, st, s. tauto.
Qed.

(** When the last turn raised a convergence error the counter is the
    ceiling, or one when the ceiling is below one. *)
Lemma exhausted_count s st c :
  head_ok api args opts s -> effects_ok api args opts st ->
  conv_errors (trace st) = conv_errors (trace s) ++ [c] ->
  max_loop_count args <= loop_count st ->
  loop_count st = Z.max 1 (max_loop_count args) /\
  failed_attempts (trace st) = Z.to_nat (Z.max 1 (max_loop_count args)) /\
  failed_attempts (trace st) = S (failed_attempts (trace s)).
Proof.
  intros [_ Hbelow [Hcount _ _ _ _ _ _]] [Hcount' _ _ _ _ _ _] Hce Hle.
  assert (Hf : failed_attempts (trace st) = S (failed_attempts (trace s))).
  { unfold failed_attempts. rewrite Hce, length_app. simpl. lia. }
  lia.
Qed.

(** A first call that converges ends the run at once. *)
Lemma first_attempt_converges e w h :
  (optimize api (method args) (options (init_state args opts eng)) eng).1
  = Converged e w h ->
  exists st,
    psi4_optimize api args opts eng = Some (after_loop args e w h st, st) /\
    loop_count st = 0 /\ molecule_traj st = [] /\
    options st = options (init_state args opts eng) /\
    trace st = [EvSetOptions (initial_options args);
                EvLog Info (LogCount 0);
                EvOptimize (method args) (options (init_state args opts eng))
                           (Converged e w h);
                EvLog Info (LogEnergy e)].
Proof.
  intros Hout. unfold psi4_optimize, psi4_optimize_fuel, enough_fuel.
  cbn [loop]. unfold body.
  pose proof (attempt_fields api args (init_state args opts eng))
    as (Ho & Hopts & _ & Hn & Htraj & Htr).
  cbn zeta in *. change (engine (init_state args opts eng)) with eng in *.
  rewrite Hout in *.
  destruct (attempt api args (init_state args opts eng)) as [out st1].
  cbn [fst snd] in *. subst out.
  eexists; split; [reflexivity|].
  cbn [emit loop_count molecule_traj options trace].
  rewrite Hn, Htraj, Hopts, Htr. repeat split.
Qed.

(** The budget in effect during each call, for every engine: the first
    call runs with [initial_iterations], every later one with
    [initial_iterations + increment_iteration]. *)
Lemma budget_during_attempt :
  exists r st,
    psi4_optimize api args opts eng = Some (r, st) /\
    length (budgets (trace st)) = invocations (trace st) /\
    forall k b, budgets (trace st) !! k = Some b ->
      b = Some (OInt (match k with
                      | O => initial_iterations args
                      | S _ => initial_iterations args + increment_iteration args
                      end)).
Proof.
  destruct run_ends as (r & st & s & Hrun & _ & _ & _ & [_ _ _ _ _ _ Hseen]).
  exists r, st. split; [exact Hrun|]. unfold budgets. rewrite Hseen.
  split; [rewrite !length_map, length_seq; reflexivity|].
  intros k b. rewrite <- map_map, !list_lookup_fmap.
  destruct (seq 0 (invocations (trace st)) !! k) as [i|] eqn:Hi; [|discriminate].
  apply lookup_seq in Hi as [-> _]. simpl. intros [= <-].
  destruct k; unfold options_at, set_options_map; simpl;
    rewrite !lookup_insert; repeat case_decide; congruence.
Qed.

(** C2, as amended: against an engine that never converges the driver
    calls [psi4.optimize] exactly [max 1 max_loop_count] times and then
    raises the convergence error. *)
Theorem never_converging_attempts :
  (forall m o e, exists c, (optimize api m o e).1 = Raised (ConvergenceError c)) ->
  exists c st,
    psi4_optimize api args opts eng = Some (Raise (ConvergenceError c), st) /\
    invocations (trace st) = Z.to_nat (Z.max 1 (max_loop_count args)).
Proof.
  intros Hnever.
  destruct run_ends as (r & st & s & Hrun & _ & Hbody & Hhead & Heff).
  destruct (done_turn api args opts s r st Hhead Hbody) as (_ & out & Hout & Houts & Hcase).
  destruct (Hnever (method args) (options s) (engine s)) as [c Hc].
  rewrite Hc in Hout. subst out. destruct Hcase as (-> & Hce & Hle & _).
  exists c, st. split; [exact Hrun|].
  destruct (exhausted_count s st c Hhead Heff Hce Hle) as (_ & <- & Hf).
  unfold invocations. rewrite Houts, length_app, Hf. simpl.
  destruct Hhead as [-> _ _]. rewrite length_map. unfold failed_attempts. lia.
Qed.

(** C3, as amended: the accumulator holds, oldest first, the snapshots of
    the geometries read from the molecule; a turn of the loop that fails
    appends exactly one snapshot at its end when a molecule is given and
    nothing otherwise; its length is the number of failed attempts with
    a molecule and zero without; after exhaustion that number is
    [max 1 max_loop_count]; it is empty when the first call converges. *)
Theorem trajectory_accumulator :
  (forall s s', reachable api args opts eng s -> body api args s = Continue s' ->
     molecule_traj s'
     = molecule_traj s ++
       match molecule args with
       | Some mol => [snapshot api (geometry api mol (engine s'))]
       | None => []
       end) /\
  exists r st,
    psi4_optimize api args opts eng = Some (r, st) /\
    molecule_traj st = map (snapshot api) (geometry_calls (trace st)) /\
    length (molecule_traj st)
    = match molecule args with
      | Some _ => failed_attempts (trace st)
      | None => O
      end /\
    (forall c, r = Raise (ConvergenceError c) ->
       failed_attempts (trace st) = Z.to_nat (Z.max 1 (max_loop_count args))) /\
    (forall e w h, outcomes (trace st) = [Converged e w h] -> molecule_traj st = []).
Proof.
  split.
  - intros s s' _ Hbody.
    apply body_continue_inv in Hbody as (c & Hout & -> & _).
    pose proof (attempt_fields api args s) as (_ & _ & Heng & _ & Htraj & _).
    pose proof (recover_fields api args c (attempt api args s).2)
      as (_ & Heng' & _ & Htraj' & _).
    rewrite Htraj', Heng', Htraj. reflexivity.
  - destruct run_ends as (r & st & s & Hrun & _ & Hbody & Hhead & Heff).
    destruct (done_turn api args opts s r st Hhead Hbody)
      as (_ & out & Hout & Houts & Hcase).
    exists r, st. split; [exact Hrun|].
    pose proof (traj_ok _ _ _ _ Heff) as Htraj.
    pose proof (geometry_ok _ _ _ _ Heff) as Hgeo.
    split; [exact Htraj|]. split; [rewrite Htraj, length_map; exact Hgeo|]. split.
    + intros c ->. destruct out as [e w h|[c'|x]].
      * destruct Hcase as [Hr _]. unfold after_loop in Hr.
        destruct (molecule args); discriminate.
      * destruct Hcase as (_ & Hce & Hle & _).
        apply (exhausted_count s st c' Hhead Heff Hce Hle).
      * destruct Hcase as [Hr _]. discriminate.
    + intros e w h Hone. rewrite Hone in Houts.
      destruct (outcomes (trace s)) as [|o os] eqn:Hos;
        [|destruct os; discriminate].
      injection Houts as <-. destruct Hcase as (_ & Hce & _).
      pose proof (all_failed _ _ _ _ Hhead) as Hall. rewrite Hos in Hall.
      symmetry in Hall. apply map_eq_nil in Hall.
      unfold failed_attempts in Hgeo. rewrite Hce, Hall in Hgeo.
      rewrite Htraj. destruct (geometry_calls (trace st)); [reflexivity|].
      destruct (molecule args); discriminate.
Qed.

(** C4, as amended: the exception that leaves [psi4_optimize] is the one
    raised by the last call of [psi4.optimize]; on exhaustion it is the
    convergence error of the last failed attempt, the counter has
    reached the ceiling and the error log is the last thing done. *)
Theorem raises_error_of_last_attempt :
  exists r st,
    psi4_optimize api args opts eng = Some (r, st) /\
    forall exn, r = Raise exn ->
      last (outcomes (trace st)) = Some (Raised exn) /\
      forall c, exn = ConvergenceError c ->
        last (conv_errors (trace st)) = Some c /\
        max_loop_count args <= loop_count st /\
        last (trace st) = Some (EvLog Error LogMaxLoops).
Proof.
  destruct run_ends as (r & st & s & Hrun & _ & Hbody & Hhead & Heff).
  destruct (done_turn api args opts s r st Hhead Hbody)
    as (_ & out & Hout & Houts & Hcase).
  exists r, st. split; [exact Hrun|]. intros exn ->.
  rewrite Houts, last_snoc. destruct out as [e w h|[c'|x]].
  - destruct Hcase as [Hr _]. unfold after_loop in Hr.
    destruct (molecule args); discriminate.
  - destruct Hcase as ([= ->] & Hce & Hle & pre & Hpre).
    split; [reflexivity|]. intros c [= <-].
    rewrite Hce, Hpre, !last_snoc. tauto.
  - destruct Hcase as ([= ->] & _). split; [reflexivity|]. discriminate.
Qed.

(** C5, as amended: the counter starts at 0; at every test of the loop
    it is the number of failed attempts and is 0 or below the ceiling; a
    turn that goes round again adds one and stays below the ceiling;
    when the call ends the counter is at most [max 1 max_loop_count]. *)
Theorem retry_counter_invariant :
  loop_count (init_state args opts eng) = 0 /\
  (forall s, reachable api args opts eng s ->
     loop_count s = Z.of_nat (failed_attempts (trace s)) /\
     (loop_count s = 0 \/ loop_count s < max_loop_count args) /\
     (forall s', body api args s = Continue s' ->
        loop_count s' = loop_count s + 1 /\ loop_count s' < max_loop_count args) /\
     (forall r s', body api args s = Done r s' ->
        loop_count s' = loop_count s \/
        loop_count s' = loop_count s + 1 /\ max_loop_count args <= loop_count s' /\
        exists c, r = Raise (ConvergenceError c))) /\
  exists r st,
    psi4_optimize api args opts eng = Some (r, st) /\
    loop_count st = Z.of_nat (failed_attempts (trace st)) /\
    0 <= loop_count st <= Z.max 1 (max_loop_count args).
Proof.
  split; [reflexivity|]. split.
  - intros s Hs. pose proof (reachable_head_ok api args opts eng s Hs) as Hhead.
    split; [apply Hhead|]. split; [apply Hhead|]. split.
    + intros s' Hbody. apply body_continue_inv in Hbody as (c & Hout & -> & Hlt).
      destruct (failed_turn_fields api args s c Hout) as (_ & -> & _). lia.
    + intros r s' Hbody. apply body_done_inv in Hbody
        as [(e & w & h & _ & _ & ->)|[(x & _ & _ & ->)|(c & Hout & -> & -> & Hle)]];
        pose proof (attempt_fields api args s) as (_ & _ & _ & Hn & _).
      * left. exact Hn.
      * left. exact Hn.
      * right. destruct (failed_turn_fields api args s c Hout) as (_ & Hn' & _).
        cbn zeta in Hn'.
        change (loop_count (emit (EvLog Error LogMaxLoops)
                                 (recover api args c (attempt api args s).2)))
          with (loop_count (recover api args c (attempt api args s).2)).
        rewrite Hn'. eauto.
  - destruct run_ends as (r & st & s & Hrun & _ & Hbody & Hhead & Heff).
    exists r, st. split; [exact Hrun|].
    pose proof (count_ok _ _ _ _ Heff) as Hcount. split; [exact Hcount|].
    destruct (done_turn api args opts s r st Hhead Hbody)
      as (_ & out & Hout & Houts & Hcase).
    destruct out as [e w h|[c'|x]].
    + destruct Hcase as (_ & Hce & _). unfold failed_attempts in Hcount.
      rewrite Hce in Hcount.
      pose proof (count_ok _ _ _ _ (head_effects _ _ _ _ Hhead)) as Hc.
      pose proof (below_ceiling _ _ _ _ Hhead) as Hb.
      unfold failed_attempts in Hc. lia.
    + destruct Hcase as (_ & Hce & Hle & _).
      destruct (exhausted_count s st c' Hhead Heff Hce Hle) as (-> & _). lia.
    + destruct Hcase as (_ & Hce & _). unfold failed_attempts in Hcount.
      rewrite Hce in Hcount.
      pose proof (count_ok _ _ _ _ (head_effects _ _ _ _ Hhead)) as Hc.
      pose proof (below_ceiling _ _ _ _ Hhead) as Hb.
      unfold failed_attempts in Hc. lia.
Qed.

(** C7: the calls of a run are convergence errors, each caught and
    followed by another call, and then one last call.  If the last call
    raises another error, that same error leaves [psi4_optimize], and
    the call is the last event of the trace: no handler has run.  If it
    raises a convergence error, the ceiling has been reached. *)
Theorem only_convergence_errors_are_handled :
  exists r st cs out,
    psi4_optimize api args opts eng = Some (r, st) /\
    outcomes (trace st)
    = map (fun c => Raised (ConvergenceError c)) cs ++ [out] /\
    (cs = [] \/ Z.of_nat (length cs) < max_loop_count args) /\
    (forall x, out = Raised (OtherError x) ->
       r = Raise (OtherError x) /\
       conv_errors (trace st) = cs /\
       last (trace st) = Some (EvOptimize (method args) (options st) out)) /\
    (forall c, out = Raised (ConvergenceError c) ->
       r = Raise (ConvergenceError c) /\
       conv_errors (trace st) = cs ++ [c] /\
       max_loop_count args <= Z.of_nat (length (cs ++ [c]))).
Proof.
  destruct run_ends as (r & st & s & Hrun & _ & Hbody & Hhead & Heff).
  destruct (done_turn api args opts s r st Hhead Hbody)
    as (_ & out & Hout & Houts & Hcase).
  pose proof (all_failed _ _ _ _ Hhead) as Hall.
  pose proof (below_ceiling _ _ _ _ Hhead) as Hb.
  pose proof (count_ok _ _ _ _ (head_effects _ _ _ _ Hhead)) as Hc.
  exists r, st, (conv_errors (trace s)), out.
  split; [exact Hrun|]. split; [rewrite Houts, Hall; reflexivity|]. split.
  { unfold failed_attempts in Hc.
    destruct Hb as [Hb|Hb]; [left|right; lia].
    destruct (conv_errors (trace s)); [reflexivity|simpl in Hc; lia]. }
  split.
  - intros x ->. destruct Hcase as (-> & Hce & Htr).
    split; [reflexivity|]. split; [exact Hce|].
    pose proof (attempt_fields api args s) as (_ & Hopts & _).
    apply body_done_inv in Hbody
      as [(e & w & h & Ho & _)|[(y & _ & _ & ->)|(c & Ho & _)]].
    + pose proof (attempt_fields api args s) as (Ho' & _). cbn zeta in Ho'.
      rewrite Ho' in Ho. congruence.
    + rewrite Hopts, Htr.
      change [EvLog Info (LogCount (loop_count s));
              EvOptimize (method args) (options s) (Raised (OtherError x))]
        with ([EvLog Info (LogCount (loop_count s))] ++
              [EvOptimize (method args) (options s) (Raised (OtherError x))]).
      rewrite app_assoc. apply last_snoc.
    + pose proof (attempt_fields api args s) as (Ho' & _). cbn zeta in Ho'.
      rewrite Ho' in Ho. congruence.
  - intros c ->. destruct Hcase as (-> & Hce & Hle & _).
    split; [reflexivity|]. split; [exact Hce|].
    pose proof (count_ok _ _ _ _ Heff) as Hc'. unfold failed_attempts in Hc'.
    rewrite Hce in Hc'. lia.
Qed.

(** C8: when the first call of [psi4.optimize] converges, it is the only
    call; [psi4_optimize] returns the energy and the wavefunction of that
    call, with its history when no molecule is given and with the
    dictionary of an empty tuple of coordinates otherwise; the counter
    is 0. *)
Theorem first_attempt_success e w h :
  (optimize api (method args) (options (init_state args opts eng)) eng).1
  = Converged e w h ->
  exists st,
    psi4_optimize api args opts eng
    = Some (Return e w match molecule args with
                       | Some _ => Coordinates []
                       | None => PsiHistory h
                       end, st) /\
    invocations (trace st) = 1%nat /\
    outcomes (trace st) = [Converged e w h] /\
    loop_count st = 0.
Proof.
  intros Hfirst.
  destruct (first_attempt_converges e w h Hfirst) as (st & Hrun & Hn & Hmt & _ & Htr).
  exists st. split.
  - rewrite Hrun. unfold after_loop. rewrite Hmt.
    destruct (molecule args); reflexivity.
  - rewrite Htr. repeat split. exact Hn.
Qed.

(** C9, as amended: the driver leaves every option other than [MAXITER],
    [GEOM_MAXITER] and [GUESS] as it found it; it calls
    [psi4.set_options] once before the loop and once for each failed
    attempt, with the dictionaries [initial_options] and
    [restart_options]; [GUESS] is left alone when no attempt fails and
    is "read" as soon as one does. *)
Theorem options_frame :
  exists r st,
    psi4_optimize api args opts eng = Some (r, st) /\
    (forall key : string,
       key <> "MAXITER"%string -> key <> "GEOM_MAXITER"%string ->
       key <> "GUESS"%string ->
       options st !! key = opts !! key) /\
    set_options_calls (trace st)
    = initial_options args
      :: replicate (failed_attempts (trace st)) (restart_options args) /\
    options st !! "GUESS"%string
    = match failed_attempts (trace st) with
      | O => opts !! "GUESS"%string
      | S _ => Some (OStr "read")
      end /\
    options st !! "MAXITER"%string = options st !! "GEOM_MAXITER"%string.
Proof.
  destruct run_ends as (r & st & s & Hrun & _ & _ & _ & Heff).
  exists r, st. split; [exact Hrun|].
  pose proof (options_ok _ _ _ _ Heff) as Hopt.
  pose proof (set_options_ok _ _ _ _ Heff) as Hset.
  rewrite Hopt. split; [|split; [exact Hset|split]].
  - intros key H1 H2 H3.
    destruct (failed_attempts (trace st));
      unfold options_at, set_options_map; simpl;
      rewrite !lookup_insert; repeat case_decide; congruence.
  - destruct (failed_attempts (trace st));
      unfold options_at, set_options_map; simpl;
      rewrite !lookup_insert; repeat case_decide; congruence.
  - destruct (failed_attempts (trace st));
      unfold options_at, set_options_map; simpl;
      rewrite !lookup_insert; repeat case_decide; congruence.
Qed.

(** C10: with a molecule, a call that returns gives as third component
    the dictionary of the coordinates accumulated, one snapshot for each
    failed attempt and oldest first, whatever history the engine
    returned; when the first call converges the tuple of coordinates is
    empty. *)
Theorem molecule_replaces_history mol :
  molecule args = Some mol ->
  exists r st,
    psi4_optimize api args opts eng = Some (r, st) /\
    (forall e w t, r = Return e w t ->
       t = Coordinates (map (snapshot api) (geometry_calls (trace st))) /\
       length (geometry_calls (trace st)) = failed_attempts (trace st) /\
       exists h, last (outcomes (trace st)) = Some (Converged e w h)) /\
    (forall e w h,
       (optimize api (method args) (options (init_state args opts eng)) eng).1
       = Converged e w h ->
       r = Return e w (Coordinates [])).
Proof.
  intros Hmol.
  destruct run_ends as (r & st & s & Hrun & _ & Hbody & Hhead & Heff).
  destruct (done_turn api args opts s r st Hhead Hbody)
    as (_ & out & Hout & Houts & Hcase).
  exists r, st. split; [exact Hrun|]. split.
  - intros e w t ->.
    pose proof (geometry_ok _ _ _ _ Heff) as Hgeo. rewrite Hmol in Hgeo.
    destruct out as [e' w' h'|[c'|x]].
    + destruct Hcase as (Hr & _). unfold after_loop in Hr. rewrite Hmol in Hr.
      injection Hr as -> -> ->.
      rewrite (traj_ok _ _ _ _ Heff), Houts, last_snoc. eauto.
    + destruct Hcase as [Hr _]. discriminate.
    + destruct Hcase as [Hr _]. discriminate.
  - intros e w h Hfirst.
    destruct (first_attempt_converges e w h Hfirst) as (st1 & Hrun1 & _ & Hmt & _).
    rewrite Hrun in Hrun1. injection Hrun1 as -> ->.
    unfold after_loop. rewrite Hmol, Hmt. reflexivity.
Qed.

End Properties.

(** ** Runs on the stub engines *)

(** C1 (defect of the code): with the budget 10, the increment 10 and an
    engine whose first three calls fail to converge, the four calls run
    with the budgets 10, 20, 20 and 20: the handler always installs
    [initial_iterations + increment_iteration], so the budget of the
    fourth call is not 10 + 3 * 10. *)
Theorem budget_stalls_after_first_retry :
  (fun x => budgets (trace x.2))
    <$> psi4_optimize (Stub.scripted (Stub.converges_after 3))
                      (Stub.notebook_args 20 None) ∅ 0%nat
  = Some [Some (OInt 10); Some (OInt 20); Some (OInt 20); Some (OInt 20)] /\
  OInt 20 <> OInt (10 + 3 * 10).
Proof.
  split; [vm_compute; reflexivity|discriminate].
Qed.

(** C2, as stated, fails: with [max_loop_count = 2] an engine that never
    converges is called twice, not three times. *)
Lemma never_converging_two_loops :
  (fun x => (x.1, invocations (trace x.2)))
    <$> psi4_optimize (Stub.scripted Stub.never_converges)
                      (Stub.notebook_args 2 None) ∅ 0%nat
  = Some (Raise (ConvergenceError 1%nat), 2%nat) /\
  2%nat <> Z.to_nat (max_loop_count (Stub.notebook_args 2 None) + 1).
Proof.
  split; [vm_compute; reflexivity|vm_compute; discriminate].
Qed.

(** The engine that never converges, with the ceiling 20 of the notebook:
    20 calls. *)
Lemma never_converging_attempts_witness :
  (forall m o e, exists c,
      (optimize (Stub.scripted Stub.never_converges) m o e).1
      = Raised (ConvergenceError c)) /\
  exists c st,
    psi4_optimize (Stub.scripted Stub.never_converges)
                  (Stub.notebook_args 20 None) ∅ 0%nat
    = Some (Raise (ConvergenceError c), st) /\
    invocations (trace st) = 20%nat.
Proof.
  split.
  - intros m o e. eexists. reflexivity.
  - apply (never_converging_attempts (Stub.scripted Stub.never_converges)
             (Stub.notebook_args 20 None) ∅ 0%nat).
    intros m o e. eexists. reflexivity.
Defined.

(** C3, as stated, fails: with a molecule and [max_loop_count = 0] the
    accumulator has one entry after exhaustion, not zero. *)
Lemma accumulator_with_zero_loops :
  (fun x => (x.1, length (molecule_traj x.2)))
    <$> psi4_optimize (Stub.scripted Stub.never_converges)
                      (Stub.notebook_args 0 (Some tt)) ∅ 0%nat
  = Some (Raise (ConvergenceError 0%nat), 1%nat) /\
  1%nat <> Z.to_nat (max_loop_count (Stub.notebook_args 0 (Some tt))).
Proof.
  split; [vm_compute; reflexivity|vm_compute; discriminate].
Qed.

(** The accumulator on the engine that never converges, with a molecule
    and the ceiling 3. *)
Lemma trajectory_accumulator_witness :
  (forall s s',
     reachable (Stub.scripted Stub.never_converges)
               (Stub.notebook_args 3 (Some tt)) ∅ 0%nat s ->
     body (Stub.scripted Stub.never_converges)
          (Stub.notebook_args 3 (Some tt)) s = Continue s' ->
     molecule_traj s' = molecule_traj s ++ [engine s']) /\
  exists r st,
    psi4_optimize (Stub.scripted Stub.never_converges)
                  (Stub.notebook_args 3 (Some tt)) ∅ 0%nat = Some (r, st) /\
    molecule_traj st = geometry_calls (trace st) /\
    length (molecule_traj st) = failed_attempts (trace st) /\
    (forall c, r = Raise (ConvergenceError c) ->
       failed_attempts (trace st) = 3%nat) /\
    (forall e w h, outcomes (trace st) = [Converged e w h] -> molecule_traj st = []).
Proof.
  destruct (trajectory_accumulator (Stub.scripted Stub.never_converges)
              (Stub.notebook_args 3 (Some tt)) ∅ 0%nat)
    as (Hstep & r & st & Hrun & Htraj & Hlen & Hex & Hfirst).
  split; [exact Hstep|].
  exists r, st. rewrite map_id in Htraj. tauto.
Defined.

(** C4, as stated, fails: with [max_loop_count = 2] the error raised is
    the one of the second failed attempt, not the one of the first. *)
Lemma reraises_second_error :
  (fun x => (x.1, head (conv_errors (trace x.2))))
    <$> psi4_optimize (Stub.scripted Stub.never_converges)
                      (Stub.notebook_args 2 None) ∅ 0%nat
  = Some (Raise (ConvergenceError 1%nat), Some 0%nat) /\
  Raise (ConvergenceError 1%nat) <> Raise (ConvergenceError 0%nat).
Proof.
  split; [vm_compute; reflexivity|discriminate].
Qed.

(** The error raised on the engine that never converges, with the
    ceiling 2. *)
Lemma raises_error_of_last_attempt_witness :
  exists r st,
    psi4_optimize (Stub.scripted Stub.never_converges)
                  (Stub.notebook_args 2 None) ∅ 0%nat = Some (r, st) /\
    forall exn, r = Raise exn ->
      last (outcomes (trace st)) = Some (Raised exn) /\
      forall c, exn = ConvergenceError c ->
        last (conv_errors (trace st)) = Some c /\
        2 <= loop_count st /\
        last (trace st) = Some (EvLog Error LogMaxLoops).
Proof.
  exact (raises_error_of_last_attempt (Stub.scripted Stub.never_converges)
           (Stub.notebook_args 2 None) ∅ 0%nat).
Defined.

(** C5, as stated, fails: with [max_loop_count = 0] the counter is 1
    when the call ends, above the ceiling. *)
Lemma counter_above_zero_ceiling :
  (fun x => loop_count x.2)
    <$> psi4_optimize (Stub.scripted Stub.never_converges)
                      (Stub.notebook_args 0 None) ∅ 0%nat
  = Some 1 /\
  ~ 1 <= max_loop_count (Stub.notebook_args 0 None).
Proof.
  split; [vm_compute; reflexivity|simpl; lia].
Qed.

(** The counter at the first test of the loop and at the end of the run,
    on the engine that never converges with the ceiling 20. *)
Lemma retry_counter_invariant_witness :
  reachable (Stub.scripted Stub.never_converges) (Stub.notebook_args 20 None)
            ∅ 0%nat
            (init_state (Stub.notebook_args 20 None) ∅ 0%nat) /\
  loop_count (init_state (Stub.notebook_args 20 None) ∅ 0%nat)
  = Z.of_nat (failed_attempts (trace (init_state (Stub.notebook_args 20 None) ∅ 0%nat))) /\
  exists r st,
    psi4_optimize (Stub.scripted Stub.never_converges)
                  (Stub.notebook_args 20 None) ∅ 0%nat = Some (r, st) /\
    loop_count st = Z.of_nat (failed_attempts (trace st)) /\
    0 <= loop_count st <= 20.
Proof.
  destruct (retry_counter_invariant (Stub.scripted Stub.never_converges)
              (Stub.notebook_args 20 None) ∅ 0%nat) as (_ & Hhead & Hend).
  split; [apply reachable_init|].
  split; [apply (Hhead _ (reachable_init _ _ _ _))|exact Hend].
Defined.

(** A run whose third call raises an error that is not a convergence
    error. *)
Lemma only_convergence_errors_are_handled_witness :
  exists r st cs out,
    psi4_optimize (Stub.scripted (Stub.crashes_after 2))
                  (Stub.notebook_args 20 None) ∅ 0%nat = Some (r, st) /\
    outcomes (trace st)
    = map (fun c => Raised (ConvergenceError c)) cs ++ [out] /\
    (cs = [] \/ Z.of_nat (length cs) < 20) /\
    (forall x, out = Raised (OtherError x) ->
       r = Raise (OtherError x) /\
       conv_errors (trace st) = cs /\
       last (trace st) = Some (EvOptimize "hf/cc-pvdz" (options st) out)) /\
    (forall c, out = Raised (ConvergenceError c) ->
       r = Raise (ConvergenceError c) /\
       conv_errors (trace st) = cs ++ [c] /\
       20 <= Z.of_nat (length (cs ++ [c]))).
Proof.
  exact (only_convergence_errors_are_handled (Stub.scripted (Stub.crashes_after 2))
           (Stub.notebook_args 20 None) ∅ 0%nat).
Defined.

(** The call of the notebook on an engine that converges at once. *)
Lemma first_attempt_success_witness :
  (optimize (Stub.scripted (Stub.converges_after 0)) "hf/cc-pvdz"
            (options (init_state (Stub.notebook_args 20 None) ∅ 0%nat)) 0%nat).1
  = Converged (-76) 0%nat 0%nat /\
  exists st,
    psi4_optimize (Stub.scripted (Stub.converges_after 0))
                  (Stub.notebook_args 20 None) ∅ 0%nat
    = Some (Return (-76) 0%nat (PsiHistory 0%nat), st) /\
    invocations (trace st) = 1%nat /\
    outcomes (trace st) = [Converged (-76) 0%nat 0%nat] /\
    loop_count st = 0.
Proof.
  split; [reflexivity|].
  apply (first_attempt_success (Stub.scripted (Stub.converges_after 0))
           (Stub.notebook_args 20 None) ∅ 0%nat (-76) 0%nat 0%nat).
  reflexivity.
Defined.

(** C9, as stated, fails: after one failed attempt the option [GUESS],
    unset before the call, is "read". *)
Lemma guess_option_changed :
  (fun x => options x.2 !! "GUESS"%string)
    <$> psi4_optimize (Stub.scripted (Stub.converges_after 1))
                      (Stub.notebook_args 20 None) ∅ 0%nat
  = Some (Some (OStr "read")) /\
  Some (OStr "read") <> (∅ : Options) !! "GUESS"%string.
Proof.
  split; [vm_compute; reflexivity|vm_compute; discriminate].
Qed.

(** The options after a run with one failed attempt, from a dictionary
    that holds another option. *)
Lemma options_frame_witness :
  exists r st,
    psi4_optimize (Stub.scripted (Stub.converges_after 1))
                  (Stub.notebook_args 20 None)
                  {["PRINT"%string := OInt 2]} 0%nat = Some (r, st) /\
    (forall key : string,
       key <> "MAXITER"%string -> key <> "GEOM_MAXITER"%string ->
       key <> "GUESS"%string ->
       options st !! key = ({["PRINT"%string := OInt 2]} : Options) !! key) /\
    set_options_calls (trace st)
    = initial_options (Stub.notebook_args 20 None)
      :: replicate (failed_attempts (trace st))
                   (restart_options (Stub.notebook_args 20 None)) /\
    options st !! "GUESS"%string
    = match failed_attempts (trace st) with
      | O => ({["PRINT"%string := OInt 2]} : Options) !! "GUESS"%string
      | S _ => Some (OStr "read")
      end /\
    options st !! "MAXITER"%string = options st !! "GEOM_MAXITER"%string.
Proof.
  exact (options_frame (Stub.scripted (Stub.converges_after 1))
           (Stub.notebook_args 20 None) {["PRINT"%string := OInt 2]} 0%nat).
Defined.

(** A run with a molecule whose first two calls fail to converge. *)
Lemma molecule_replaces_history_witness :
  molecule (Stub.notebook_args 20 (Some tt)) = Some tt /\
  exists r st,
    psi4_optimize (Stub.scripted (Stub.converges_after 2))
                  (Stub.notebook_args 20 (Some tt)) ∅ 0%nat = Some (r, st) /\
    (forall e w t, r = Return e w t ->
       t = Coordinates (map (snapshot (Stub.scripted (Stub.converges_after 2)))
                            (geometry_calls (trace st))) /\
       length (geometry_calls (trace st)) = failed_attempts (trace st) /\
       exists h, last (outcomes (trace st)) = Some (Converged e w h)) /\
    (forall e w h,
       (optimize (Stub.scripted (Stub.converges_after 2)) "hf/cc-pvdz"
                 (options (init_state (Stub.notebook_args 20 (Some tt)) ∅ 0%nat))
                 0%nat).1
       = Converged e w h ->
       r = Return e w (Coordinates [])).
Proof.
  split; [reflexivity|].
  apply (molecule_replaces_history (Stub.scripted (Stub.converges_after 2))
           (Stub.notebook_args 20 (Some tt)) ∅ 0%nat tt).
  reflexivity.
Defined.

(** ** Further properties of a run *)

Section Turns.

Context {T : Psi4Types} (api : Psi4) (args : Args) (opts : Options) (eng : Engine).

(** The events a failed attempt adds after its call, up to the update
    of the options. *)
Lemma continue_turn_events s s' :
  body api args s = Continue s' ->
  let eng' := (optimize api (method args) (options s) (engine s)).2 in
  exists c,
    (optimize api (method args) (options s) (engine s)).1
    = Raised (ConvergenceError c) /\
    engine s' = eng' /\
    trace s'
    = trace s ++
      [EvLog Info (LogCount (loop_count s));
       EvOptimize (method args) (options s) (Raised (ConvergenceError c));
       EvLog Warning LogUnconverged] ++
      match molecule args with
      | Some mol => [EvGeometry mol (geometry api mol eng')]
      | None => []
      end ++
      [EvToFile (cerr_wfn api c) (get_scratch_filename api (cerr_wfn api c) 180);
       EvSetOptions (restart_options args)].
Proof.
  intros Hbody. apply body_continue_inv in Hbody as (c & Hout & -> & _).
  destruct (failed_turn_fields api args s c Hout) as (_ & _ & _ & Htr).
  pose proof (attempt_fields api args s) as (Ho & _ & Heng & _).
  pose proof (recover_fields api args c (attempt api args s).2) as (_ & Heng' & _).
  cbn zeta in *. exists c. rewrite <- Ho, Hout, Heng', Heng. tauto.
Qed.

(** The events of the last turn of a run and its result. *)
Lemma done_turn_events s r st :
  body api args s = Done r st ->
  let out := (optimize api (method args) (options s) (engine s)).1 in
  let eng' := (optimize api (method args) (options s) (engine s)).2 in
  engine st = eng' /\
  r = match out with
      | Converged e w h => after_loop args e w h st
      | Raised exn => Raise exn
      end /\
  trace st
  = trace s ++
    [EvLog Info (LogCount (loop_count s)); EvOptimize (method args) (options s) out] ++
    match out with
    | Converged e _ _ => [EvLog Info (LogEnergy e)]
    | Raised (ConvergenceError c) =>
        [EvLog Warning LogUnconverged] ++
        match molecule args with
        | Some mol => [EvGeometry mol (geometry api mol eng')]
        | None => []
        end ++
        [EvToFile (cerr_wfn api c) (get_scratch_filename api (cerr_wfn api c) 180);
         EvSetOptions (restart_options args);
         EvLog Error LogMaxLoops]
    | Raised (OtherError _) => []
    end.
Proof.
  intros Hbody.
  pose proof (attempt_fields api args s) as (Ho & _ & Heng & _ & _ & Htr).
  cbn zeta in *.
  apply body_done_inv in Hbody
    as [(e & w & h & Hout & -> & ->)|[(x & Hout & -> & ->)|(c & Hout & -> & -> & _)]];
    cbn zeta; rewrite <- Ho, Hout.
  - simpl. rewrite Heng, Htr, <- Ho, Hout, <- app_assoc. tauto.
  - rewrite Heng, Htr, <- Ho, Hout, app_nil_r. tauto.
  - destruct (failed_turn_fields api args s c Hout) as (_ & _ & _ & Htr').
    pose proof (recover_fields api args c (attempt api args s).2) as (_ & Heng' & _).
    cbn zeta in *.
    change (engine (emit (EvLog Error LogMaxLoops)
                         (recover api args c (attempt api args s).2)))
      with (engine (recover api args c (attempt api args s).2)).
    change (trace (emit (EvLog Error LogMaxLoops)
                        (recover api args c (attempt api args s).2)))
      with (trace (recover api args c (attempt api args s).2)
            ++ [EvLog Error LogMaxLoops]).
    rewrite Heng', Heng, Htr'. split; [reflexivity|]. split; [reflexivity|].
    destruct (molecule args); simpl; rewrite <- !app_assoc; reflexivity.
Qed.

End Turns.

Section Along.

Context {T : Psi4Types} (api : Psi4) (args : Args) (opts : Options) (eng : Engine).

Local Abbreviation log_of_failures n :=
  (flat_map (fun j => [(Info, LogCount (Z.of_nat j)); (Warning, LogUnconverged)])
            (seq 0 n)).

Local Abbreviation geometries n :=
  (match molecule args with
   | Some mol => map (fun j => geometry api mol (engine_at api args opts eng (S j)))
                     (seq 0 n)
   | None => []
   end).

(** At the test of the loop, after [n] failed attempts: the engine is in
    the state [engine_at n], the calls made are the calls [0..n-1] of
    [outcome_at], a geometry was read after each, and each was logged. *)
Lemma reachable_calls s :
  reachable api args opts eng s ->
  let n := failed_attempts (trace s) in
  engine s = engine_at api args opts eng n /\
  outcomes (trace s) = map (outcome_at api args opts eng) (seq 0 n) /\
  geometry_calls (trace s) = geometries n /\
  log_calls (trace s) = log_of_failures n.
Proof.
  induction 1 as [|s s' Hs IH Hbody];
    [simpl; destruct (molecule args); repeat split; reflexivity|].
  pose proof (reachable_head_ok api args opts eng s Hs) as Hhead.
  pose proof (options_ok _ _ _ _ (head_effects _ _ _ _ Hhead)) as Hopt.
  pose proof (count_ok _ _ _ _ (head_effects _ _ _ _ Hhead)) as Hcount.
  destruct (continue_turn_events api args s s' Hbody) as (c & Hout & Heng & Htr).
  cbn zeta in *. destruct IH as (IHe & IHo & IHg & IHl).
  set (n := failed_attempts (trace s)) in *.
  assert (Hn : failed_attempts (trace s') = S n).
  { unfold n, failed_attempts, conv_errors.
    rewrite Htr, !omap_app, !length_app.
    destruct (molecule args); simpl; lia. }
  assert (Hcall : outcome_at api args opts eng n = Raised (ConvergenceError c)).
  { unfold outcome_at. rewrite <- Hopt, <- IHe. exact Hout. }
  assert (Hnext : engine s' = engine_at api args opts eng (S n)).
  { simpl. rewrite <- Hopt, <- IHe. exact Heng. }
  rewrite Hn. split; [exact Hnext|]. rewrite <- Heng, Hnext in Htr. split; [|split].
  - unfold outcomes in *. rewrite Htr, !omap_app, IHo, seq_S, map_app. simpl.
    rewrite Hcall. destruct (molecule args); reflexivity.
  - unfold geometry_calls in *. rewrite Htr, !omap_app, IHg.
    destruct (molecule args); [|reflexivity].
    rewrite seq_S, map_app. reflexivity.
  - unfold log_calls in *.
    rewrite Htr, !omap_app, IHl, seq_S, flat_map_app. simpl.
    rewrite Hcount. destruct (molecule args); reflexivity.
Qed.

(** A run in terms of the engine: [n] calls fail to converge and are
    retried, the call number [n] ends the run. *)
Lemma run_calls :
  exists r st n,
    psi4_optimize api args opts eng = Some (r, st) /\
    (n = O \/ Z.of_nat n < max_loop_count args) /\
    (forall j, (j < n)%nat ->
       exists c, outcome_at api args opts eng j = Raised (ConvergenceError c)) /\
    r = match outcome_at api args opts eng n with
        | Converged e w h => after_loop args e w h st
        | Raised exn => Raise exn
        end /\
    failed_attempts (trace st)
    = match outcome_at api args opts eng n with
      | Raised (ConvergenceError _) => S n
      | _ => n
      end /\
    (max_loop_count args <= Z.of_nat (failed_attempts (trace st)) \/
     failed_attempts (trace st) = n) /\
    engine st = engine_at api args opts eng (S n) /\
    outcomes (trace st) = map (outcome_at api args opts eng) (seq 0 (S n)) /\
    geometry_calls (trace st) = geometries (failed_attempts (trace st)) /\
    log_calls (trace st)
    = log_of_failures n ++
      (Info, LogCount (Z.of_nat n))
      :: match outcome_at api args opts eng n with
         | Converged e _ _ => [(Info, LogEnergy e)]
         | Raised (ConvergenceError _) =>
             [(Warning, LogUnconverged); (Error, LogMaxLoops)]
         | Raised (OtherError _) => []
         end.
Proof.
  destruct (run_ends api args opts eng) as (r & st & s & Hrun & Hs & Hbody & Hhead & Heff).
  destruct (reachable_calls s Hs) as (He & Ho & Hg & Hl). cbn zeta in *.
  pose proof (options_ok _ _ _ _ (head_effects _ _ _ _ Hhead)) as Hopt.
  pose proof (count_ok _ _ _ _ (head_effects _ _ _ _ Hhead)) as Hcount.
  pose proof (all_failed _ _ _ _ Hhead) as Hall.
  pose proof (below_ceiling _ _ _ _ Hhead) as Hbelow.
  destruct (done_turn api args opts s r st Hhead Hbody) as (_ & out & Hout & _ & Hcase).
  destruct (done_turn_events api args s r st Hbody) as (Heng & Hr & Htr).
  cbn zeta in *.
  set (n := failed_attempts (trace s)) in *.
  assert (Hcall : outcome_at api args opts eng n
                  = (optimize api (method args) (options s) (engine s)).1).
  { unfold outcome_at. rewrite <- Hopt, <- He. reflexivity. }
  rewrite <- Hcall in *. rewrite Hopt, He in Heng.
  assert (Hn : failed_attempts (trace st)
               = match outcome_at api args opts eng n with
                 | Raised (ConvergenceError _) => S n
                 | _ => n
                 end).
  { destruct (outcome_at api args opts eng n) as [e w h|[c|x]];
      unfold n, failed_attempts, conv_errors;
      rewrite Htr, !omap_app, !length_app;
      destruct (molecule args); simpl; lia. }
  exists r, st, n. split; [exact Hrun|]. split; [lia|]. split.
  { intros j Hj. rewrite Hall in Ho.
    assert (Hlen : length (conv_errors (trace s)) = n) by reflexivity.
    destruct (lookup_lt_is_Some_2 (conv_errors (trace s)) j) as [c Hc]; [lia|].
    exists c.
    assert (H1 : map (fun c => Raised (ConvergenceError c)) (conv_errors (trace s)) !! j
                 = Some (Raised (ConvergenceError c)))
      by (rewrite list_lookup_fmap, Hc; reflexivity).
    rewrite Ho, list_lookup_fmap, lookup_seq_lt in H1 by lia.
    injection H1 as H1. exact H1. }
  split; [exact Hr|]. split; [exact Hn|]. split.
  { rewrite Hn. subst out.
    destruct (outcome_at api args opts eng n) as [e w h|[c|x]]; [right; reflexivity| |right; reflexivity].
    left. destruct Hcase as (_ & Hce & Hle & _).
    pose proof (count_ok _ _ _ _ Heff) as Hc'. unfold failed_attempts in Hc'.
    rewrite Hce, length_app in Hc'. simpl in Hc'.
    unfold n, failed_attempts. lia. }
  split; [exact Heng|]. split; [|split].
  - unfold outcomes in *. rewrite Htr, !omap_app, Ho, seq_S, map_app. simpl.
    destruct (outcome_at api args opts eng n) as [e w h|[c|x]];
      destruct (molecule args); reflexivity.
  - rewrite Hn. unfold geometry_calls in *. rewrite Htr, !omap_app, Hg.
    destruct (outcome_at api args opts eng n) as [e w h|[c|x]];
      destruct (molecule args); rewrite ?seq_S, ?map_app; simpl;
      rewrite ?app_nil_r, ?Hopt, ?He; reflexivity.
  - unfold log_calls in *. rewrite Htr, !omap_app, Hl, Hcount.
    destruct (outcome_at api args opts eng n) as [e w h|[c|x]];
      destruct (molecule args); reflexivity.
Qed.

(** At the test of the loop the trace is the first [set_options]
    followed by the events of the turns made. *)
Lemma reachable_trace s :
  reachable api args opts eng s ->
  trace s
  = EvSetOptions (initial_options args)
    :: flat_map (turn_events api args opts eng) (seq 0 (failed_attempts (trace s))).
Proof.
  induction 1 as [|s s' Hs IH Hbody]; [reflexivity|].
  pose proof (reachable_head_ok api args opts eng s Hs) as Hhead.
  pose proof (options_ok _ _ _ _ (head_effects _ _ _ _ Hhead)) as Hopt.
  pose proof (count_ok _ _ _ _ (head_effects _ _ _ _ Hhead)) as Hcount.
  destruct (reachable_calls s Hs) as (He & _). cbn zeta in He.
  destruct (continue_turn_events api args s s' Hbody) as (c & Hout & Heng & Htr).
  apply body_continue_inv in Hbody as (_ & _ & _ & Hlt).
  cbn zeta in *.
  set (n := failed_attempts (trace s)) in *.
  assert (Hn : failed_attempts (trace s') = S n).
  { unfold n, failed_attempts, conv_errors.
    rewrite Htr, !omap_app, !length_app.
    destruct (molecule args); simpl; lia. }
  assert (Hcall : outcome_at api args opts eng n = Raised (ConvergenceError c)).
  { unfold outcome_at. rewrite <- Hopt, <- He. exact Hout. }
  rewrite Hn, seq_S, flat_map_app, app_comm_cons, <- IH, Htr. f_equal.
  simpl. rewrite app_nil_r. unfold turn_events. rewrite Hcall.
  replace (max_loop_count args <=? Z.of_nat (S n)) with false
    by (symmetry; apply Z.leb_gt; lia).
  rewrite Hcount, Hopt, He.
  destruct (molecule args); simpl; reflexivity.
Qed.

End Along.

Section Closed.

Context {T : Psi4Types} (api : Psi4) (args : Args) (opts : Options) (eng : Engine).

(** The convergence errors of a trace are those among its outcomes. *)
Lemma conv_errors_outcomes (tr : list Event) :
  conv_errors tr
  = omap (fun out => match out with
                     | Raised (ConvergenceError c) => Some c
                     | _ => None
                     end) (outcomes tr).
Proof.
  unfold conv_errors, outcomes.
  induction tr as [|ev tr IH]; [reflexivity|].
  destruct ev as [kvs|lvl msg|m o [e w h|[c|x]]|mol g|w f]; simpl;
    first [exact IH | f_equal; exact IH].
Qed.

(** The writes that go with the convergence errors among the answers
    to a list of calls. *)
Lemma writes_of_answers (l : list nat) :
  map (fun c => (cerr_wfn api c, get_scratch_filename api (cerr_wfn api c) 180))
      (omap (fun out => match out with
                        | Raised (ConvergenceError c) => Some c
                        | _ => None
                        end)
            (map (outcome_at api args opts eng) l))
  = omap (fun j => match outcome_at api args opts eng j with
                   | Raised (ConvergenceError c) =>
                       Some (cerr_wfn api c,
                             get_scratch_filename api (cerr_wfn api c) 180)
                   | _ => None
                   end) l.
Proof.
  induction l as [|j l IH]; [reflexivity|]. simpl.
  destruct (outcome_at api args opts eng j) as [e w h|[c|x]]; simpl;
    first [exact IH | f_equal; exact IH].
Qed.

(** C6: a run makes the calls [0..n] of [psi4.optimize], the calls
    before the last all fail to converge, and the last decides the
    result.  Its calls of [to_file] are, in order, one for each of
    these calls that the engine answered with a convergence error and
    none for the others, each writing the wavefunction of that error to
    the filename the engine gives for scratch unit 180: one write for
    each failed attempt, [n] when the last call does not fail and
    [n + 1] when it does, and none when the first call converges. *)
Theorem persisted_state_writes :
  exists r st n,
    psi4_optimize api args opts eng = Some (r, st) /\
    outcomes (trace st) = map (outcome_at api args opts eng) (seq 0 (S n)) /\
    (forall j, (j < n)%nat ->
       exists c, outcome_at api args opts eng j = Raised (ConvergenceError c)) /\
    r = match outcome_at api args opts eng n with
        | Converged e w h => after_loop args e w h st
        | Raised exn => Raise exn
        end /\
    to_file_calls (trace st)
    = omap (fun j => match outcome_at api args opts eng j with
                     | Raised (ConvergenceError c) =>
                         Some (cerr_wfn api c,
                               get_scratch_filename api (cerr_wfn api c) 180)
                     | _ => None
                     end) (seq 0 (S n)) /\
    to_file_calls (trace st)
    = map (fun c => (cerr_wfn api c,
                     get_scratch_filename api (cerr_wfn api c) 180))
          (conv_errors (trace st)) /\
    length (to_file_calls (trace st)) = failed_attempts (trace st) /\
    length (to_file_calls (trace st))
    = match outcome_at api args opts eng n with
      | Raised (ConvergenceError _) => S n
      | _ => n
      end /\
    (forall e w h,
       (optimize api (method args) (options (init_state args opts eng)) eng).1
       = Converged e w h ->
       n = O /\ to_file_calls (trace st) = []).
Proof.
  destruct (run_calls api args opts eng)
    as (r & st & n & Hrun & _ & Hbefore & Hr & Hf & _ & _ & Ho & _).
  destruct (run_ends api args opts eng) as (r' & st' & _ & Hrun' & _ & _ & _ & Heff).
  rewrite Hrun in Hrun'. injection Hrun' as <- <-.
  pose proof (to_file_ok _ _ _ _ Heff) as Hfile.
  exists r, st, n. split; [exact Hrun|]. split; [exact Ho|].
  split; [exact Hbefore|]. split; [exact Hr|].
  assert (Hlen : length (to_file_calls (trace st)) = failed_attempts (trace st))
    by (rewrite Hfile; apply length_map).
  split; [|split; [exact Hfile|split; [exact Hlen|split]]].
  - rewrite Hfile, conv_errors_outcomes, Ho. apply writes_of_answers.
  - rewrite Hlen. exact Hf.
  - intros e w h Hfirst.
    assert (n = O) as ->.
    { destruct n as [|n]; [reflexivity|].
      destruct (Hbefore O ltac:(lia)) as [c Hc].
      change (outcome_at api args opts eng 0)
        with (optimize api (method args) (options (init_state args opts eng)) eng).1
        in Hc.
      congruence. }
    split; [reflexivity|].
    change (optimize api (method args) (options (init_state args opts eng)) eng).1
      with (outcome_at api args opts eng 0) in Hfirst.
    rewrite Hfirst in Hf. apply nil_length_inv. rewrite Hlen. exact Hf.
Qed.

(** The trace of a run is the first [set_options] followed by the
    events of its turns, one for each call of [psi4.optimize]; nothing
    else is done. *)
Theorem trace_of_run :
  exists r st,
    psi4_optimize api args opts eng = Some (r, st) /\
    trace st
    = EvSetOptions (initial_options args)
      :: flat_map (turn_events api args opts eng) (seq 0 (invocations (trace st))).
Proof.
  destruct (run_ends api args opts eng) as (r & st & s & Hrun & Hs & Hbody & Hhead & Heff).
  exists r, st. split; [exact Hrun|].
  pose proof (options_ok _ _ _ _ (head_effects _ _ _ _ Hhead)) as Hopt.
  pose proof (count_ok _ _ _ _ (head_effects _ _ _ _ Hhead)) as Hcount.
  pose proof (all_failed _ _ _ _ Hhead) as Hall.
  destruct (reachable_calls api args opts eng s Hs) as (He & _). cbn zeta in He.
  pose proof (reachable_trace api args opts eng s Hs) as Hhd.
  destruct (done_turn api args opts s r st Hhead Hbody) as (_ & out & Hout & Houts & Hcase).
  destruct (done_turn_events api args s r st Hbody) as (Heng & _ & Htr).
  cbn zeta in *.
  set (n := failed_attempts (trace s)) in *.
  assert (Hinv : invocations (trace st) = S n).
  { unfold invocations. rewrite Houts, length_app, Hall, length_map. simpl.
    unfold n, failed_attempts. lia. }
  assert (Hcall : outcome_at api args opts eng n = out).
  { unfold outcome_at. rewrite <- Hopt, <- He. symmetry. exact Hout. }
  rewrite Hinv, seq_S, flat_map_app, app_comm_cons, <- Hhd, Htr. f_equal.
  simpl. rewrite app_nil_r. unfold turn_events.
  rewrite Hcall, <- Hout, Hcount, Hopt.
  destruct out as [e w h|[c|x]]; try reflexivity.
  destruct Hcase as (_ & Hce & Hle & _).
  pose proof (count_ok _ _ _ _ Heff) as Hc'. unfold failed_attempts in Hc'.
  rewrite Hce, length_app in Hc'. simpl in Hc'.
  replace (max_loop_count args <=? Z.of_nat (S n)) with true
    by (symmetry; apply Z.leb_le; unfold n, failed_attempts; lia).
  rewrite <- Hopt, He, Hopt. change (engine_at api args opts eng (S n))
    with (optimize api (method args) (options_at args opts n)
                   (engine_at api args opts eng n)).2.
  destruct (molecule args); reflexivity.
Qed.

(** Whatever [psi4.optimize] answers, it is called at least once and at
    most [max 1 max_loop_count] times; every call but the last was
    answered with a convergence error, the last call is the answer of
    the engine to the call of that number and decides the result, and
    it is counted as failed exactly when its convergence error leaves
    the function. *)
Theorem optimize_call_bounds :
  exists r st cs out,
    psi4_optimize api args opts eng = Some (r, st) /\
    outcomes (trace st)
    = map (fun c => Raised (ConvergenceError c)) cs ++ [out] /\
    outcomes (trace st)
    = map (outcome_at api args opts eng) (seq 0 (S (length cs))) /\
    out = outcome_at api args opts eng (length cs) /\
    r = match out with
        | Converged e w h => after_loop args e w h st
        | Raised exn => Raise exn
        end /\
    conv_errors (trace st)
    = cs ++ match out with
            | Raised (ConvergenceError c) => [c]
            | _ => []
            end /\
    (1 <= invocations (trace st))%nat /\
    Z.of_nat (invocations (trace st)) <= Z.max 1 (max_loop_count args) /\
    invocations (trace st)
    = (failed_attempts (trace st)
       + match r with Raise (ConvergenceError _) => 0 | _ => 1 end)%nat.
Proof.
  destruct (run_calls api args opts eng)
    as (r & st & n & Hrun & Hn & Hbefore & Hr & Hf & _ & _ & Ho & _).
  assert (Hcs : exists cs, length cs = n /\
            map (outcome_at api args opts eng) (seq 0 n)
            = map (fun c => Raised (ConvergenceError c)) cs).
  { clear Hn Hr Hf Ho. induction n as [|n IH]; [exists []; split; reflexivity|].
    destruct IH as (cs & Hlen & Hcs); [intros j Hj; apply Hbefore; lia|].
    destruct (Hbefore n ltac:(lia)) as [c Hc].
    exists (cs ++ [c]). rewrite length_app, seq_S, !map_app, Hcs. simpl.
    rewrite Hc. split; [lia|reflexivity]. }
  destruct Hcs as (cs & Hlen & Hcs).
  exists r, st, cs, (outcome_at api args opts eng n).
  split; [exact Hrun|]. rewrite Hlen.
  assert (Houts : outcomes (trace st)
                  = map (fun c => Raised (ConvergenceError c)) cs
                    ++ [outcome_at api args opts eng n]).
  { rewrite Ho, seq_S, map_app, Hcs. reflexivity. }
  split; [exact Houts|]. split; [exact Ho|]. split; [reflexivity|].
  split; [exact Hr|]. split.
  { rewrite conv_errors_outcomes, Houts, omap_app.
    f_equal.
    - clear. induction cs as [|c cs IH]; [reflexivity|]. simpl.
      f_equal. exact IH.
    - simpl. destruct (outcome_at api args opts eng n) as [e w h|[c|x]]; reflexivity. }
  unfold invocations. rewrite Ho, length_map, length_seq, Hf, Hr.
  split; [lia|]. split; [lia|].
  destruct (outcome_at api args opts eng n) as [e w h|[c|x]]; try lia.
  unfold after_loop. destruct (molecule args); lia.
Qed.

(** The options under which each call of [psi4.optimize] is made:
    [GEOM_MAXITER] is [MAXITER]; [GUESS] is as the caller left it for
    the first call and "read" for every retry; every other option is as
    the caller left it. *)
Theorem options_during_calls :
  exists r st,
    psi4_optimize api args opts eng = Some (r, st) /\
    length (options_seen (trace st)) = invocations (trace st) /\
    forall k (o : Options), options_seen (trace st) !! k = Some o ->
      o !! "GEOM_MAXITER"%string = o !! "MAXITER"%string /\
      o !! "GUESS"%string
      = match k with
        | O => opts !! "GUESS"%string
        | S _ => Some (OStr "read")
        end /\
      forall key : string,
        key <> "MAXITER"%string -> key <> "GEOM_MAXITER"%string ->
        key <> "GUESS"%string ->
        o !! key = opts !! key.
Proof.
  destruct (run_ends api args opts eng) as (r & st & s & Hrun & _ & _ & _ & Heff).
  exists r, st. split; [exact Hrun|].
  pose proof (seen_ok _ _ _ _ Heff) as Hseen. rewrite Hseen.
  split; [rewrite length_map, length_seq; reflexivity|].
  intros k o. rewrite list_lookup_fmap.
  destruct (seq 0 (invocations (trace st)) !! k) as [i|] eqn:Hi; [|discriminate].
  apply lookup_seq in Hi as [-> _]. simpl. intros [= <-].
  destruct k; unfold options_at, set_options_map; simpl;
    (split; [|split; [|intros key H1 H2 H3]]);
    rewrite !lookup_insert; repeat case_decide; congruence.
Qed.

(** The log of a run: for each failed attempt that is retried the count
    and the warning; then the count and the energy when the last call
    converges, the count alone when it raises another error, and the
    error message after the warning of the last failed attempt when the
    ceiling is reached. *)
Theorem log_of_run :
  exists r st,
    psi4_optimize api args opts eng = Some (r, st) /\
    log_calls (trace st)
    = flat_map (fun j => [(Info, LogCount (Z.of_nat j)); (Warning, LogUnconverged)])
               (seq 0 (failed_attempts (trace st))) ++
      match r with
      | Return e _ _ =>
          [(Info, LogCount (Z.of_nat (failed_attempts (trace st))));
           (Info, LogEnergy e)]
      | Raise (ConvergenceError _) => [(Error, LogMaxLoops)]
      | Raise (OtherError _) =>
          [(Info, LogCount (Z.of_nat (failed_attempts (trace st))))]
      end.
Proof.
  destruct (run_calls api args opts eng)
    as (r & st & n & Hrun & _ & _ & Hr & Hf & _ & _ & _ & _ & Hl).
  exists r, st. split; [exact Hrun|]. rewrite Hl, Hf, Hr.
  destruct (outcome_at api args opts eng n) as [e w h|[c|x]]; try reflexivity.
  - unfold after_loop. destruct (molecule args); reflexivity.
  - rewrite seq_S, flat_map_app. simpl. rewrite <- app_assoc. reflexivity.
Qed.

(** With a molecule, the accumulator holds for each failed attempt the
    snapshot of the geometry the molecule has in the state of the
    engine that the failed call left, before anything else is done to
    the engine. *)
Theorem snapshots_of_failed_calls mol :
  molecule args = Some mol ->
  exists r st,
    psi4_optimize api args opts eng = Some (r, st) /\
    molecule_traj st
    = map (fun j => snapshot api (geometry api mol (engine_at api args opts eng (S j))))
          (seq 0 (failed_attempts (trace st))).
Proof.
  intros Hmol.
  destruct (run_calls api args opts eng)
    as (r & st & n & Hrun & _ & _ & _ & _ & _ & _ & _ & Hg & _).
  destruct (run_ends api args opts eng) as (r' & st' & _ & Hrun' & _ & _ & _ & Heff).
  rewrite Hrun in Hrun'. injection Hrun' as <- <-.
  exists r, st. split; [exact Hrun|].
  rewrite (traj_ok _ _ _ _ Heff), Hg, Hmol, map_map. reflexivity.
Qed.

(** Recovery: when the calls [0..k-1] fail to converge, the call [k]
    converges and [k] is 0 or below the ceiling, [psi4_optimize]
    returns the energy and the wavefunction of the call [k] after
    [k + 1] calls and [k] writes, with the counter at [k]; the third
    component is the history of the call [k] without a molecule and
    the [k] snapshots with one. *)
Theorem recovers_after_failures k e w h :
  (forall j, (j < k)%nat ->
     exists c, outcome_at api args opts eng j = Raised (ConvergenceError c)) ->
  outcome_at api args opts eng k = Converged e w h ->
  k = O \/ Z.of_nat k < max_loop_count args ->
  exists st,
    psi4_optimize api args opts eng
    = Some (Return e w
              match molecule args with
              | Some mol =>
                  Coordinates
                    (map (fun j => snapshot api
                                     (geometry api mol (engine_at api args opts eng (S j))))
                         (seq 0 k))
              | None => PsiHistory h
              end, st) /\
    loop_count st = Z.of_nat k /\
    invocations (trace st) = S k /\
    length (to_file_calls (trace st)) = k.
Proof.
  intros Hfail Hconv Hk.
  destruct (run_calls api args opts eng)
    as (r & st & n & Hrun & Hn & Hbefore & Hr & Hf & Hstop & _ & Ho & Hg & _).
  destruct (run_ends api args opts eng) as (r' & st' & _ & Hrun' & _ & _ & _ & Heff).
  rewrite Hrun in Hrun'. injection Hrun' as <- <-.
  assert (n = k) as ->.
  { destruct (Nat.lt_trichotomy n k) as [Hlt|[Heq|Hgt]]; [|exact Heq|].
    - destruct (Hfail n Hlt) as [c Hc]. rewrite Hc in Hf. lia.
    - destruct (Hbefore k Hgt) as [c Hc]. congruence. }
  rewrite Hconv in *. exists st.
  pose proof (count_ok _ _ _ _ Heff) as Hcount.
  pose proof (to_file_ok _ _ _ _ Heff) as Hfile.
  pose proof (traj_ok _ _ _ _ Heff) as Htraj.
  split; [|split; [|split]].
  - rewrite Hrun, Hr. unfold after_loop. rewrite Htraj, Hg, Hf.
    destruct (molecule args); [rewrite map_map|]; reflexivity.
  - rewrite Hcount, Hf. reflexivity.
  - unfold invocations. rewrite Ho, length_map, length_seq. reflexivity.
  - rewrite Hfile, length_map. exact Hf.
Qed.

(** Giving up: when the first [max 1 max_loop_count] calls all fail to
    converge, [psi4_optimize] makes exactly these calls and raises the
    convergence error of the last of them, whatever the engine would
    answer to a further call. *)
Theorem gives_up_at_ceiling :
  (forall j, (j < Z.to_nat (Z.max 1 (max_loop_count args)))%nat ->
     exists c, outcome_at api args opts eng j = Raised (ConvergenceError c)) ->
  exists c st,
    psi4_optimize api args opts eng = Some (Raise (ConvergenceError c), st) /\
    outcome_at api args opts eng (Nat.pred (Z.to_nat (Z.max 1 (max_loop_count args))))
    = Raised (ConvergenceError c) /\
    invocations (trace st) = Z.to_nat (Z.max 1 (max_loop_count args)).
Proof.
  intros Hfail.
  destruct (run_calls api args opts eng)
    as (r & st & n & Hrun & Hn & _ & Hr & Hf & Hstop & _ & Ho & _).
  destruct (Hfail n ltac:(lia)) as [c Hc].
  rewrite Hc in *. subst r. exists c, st. split; [exact Hrun|].
  assert (S n = Z.to_nat (Z.max 1 (max_loop_count args))) as <- by lia.
  split; [exact Hc|].
  unfold invocations. rewrite Ho, length_map, length_seq. reflexivity.
Qed.

(** Without a molecule no geometry is ever read, the accumulator stays
    empty, and a call that returns gives the energy, the wavefunction
    and the history of one and the same call of [psi4.optimize], the
    last one. *)
Theorem without_molecule :
  molecule args = None ->
  exists r st,
    psi4_optimize api args opts eng = Some (r, st) /\
    geometry_calls (trace st) = [] /\
    molecule_traj st = [] /\
    forall e w t, r = Return e w t ->
      exists h, t = PsiHistory h /\
                last (outcomes (trace st)) = Some (Converged e w h).
Proof.
  intros Hmol.
  destruct (run_calls api args opts eng)
    as (r & st & n & Hrun & _ & _ & Hr & _ & _ & _ & Ho & Hg & _).
  destruct (run_ends api args opts eng) as (r' & st' & _ & Hrun' & _ & _ & _ & Heff).
  rewrite Hrun in Hrun'. injection Hrun' as <- <-.
  rewrite Hmol in Hg.
  exists r, st. split; [exact Hrun|]. split; [exact Hg|].
  split; [rewrite (traj_ok _ _ _ _ Heff), Hg; reflexivity|].
  intros e w t ->. rewrite Ho, seq_S, map_app. simpl. rewrite last_snoc.
  destruct (outcome_at api args opts eng n) as [e' w' h'|exn]; [|discriminate].
  unfold after_loop in Hr. rewrite Hmol in Hr. injection Hr as -> -> ->.
  eauto.
Qed.

(** A ceiling of 1, of 0 or below 0 is all the same: one call of
    [psi4.optimize] is made and its answer decides the result.  When
    it is a convergence error, the error is handled once, by the
    warning, the geometry read if a molecule is given, the write of the
    failing wavefunction and the update of the options, in that order,
    and is then raised after the error log; the counter is 1. *)
Theorem ceiling_below_one :
  max_loop_count args <= 1 ->
  psi4_optimize api args opts eng
  = psi4_optimize api
      (mkArgs (initial_iterations args) (increment_iteration args) 1
              (molecule args) (method args))
      opts eng /\
  exists r st,
    psi4_optimize api args opts eng = Some (r, st) /\
    invocations (trace st) = 1%nat /\
    outcomes (trace st) = [outcome_at api args opts eng 0] /\
    r = match outcome_at api args opts eng 0 with
        | Converged e w h => after_loop args e w h st
        | Raised exn => Raise exn
        end /\
    forall c,
      outcome_at api args opts eng 0 = Raised (ConvergenceError c) ->
      r = Raise (ConvergenceError c) /\
      loop_count st = 1 /\
      options st
      = set_options_map (restart_options args)
          (set_options_map (initial_options args) opts) /\
      to_file_calls (trace st)
      = [(cerr_wfn api c, get_scratch_filename api (cerr_wfn api c) 180)] /\
      trace st
      = [EvSetOptions (initial_options args);
         EvLog Info (LogCount 0);
         EvOptimize (method args) (set_options_map (initial_options args) opts)
                    (Raised (ConvergenceError c));
         EvLog Warning LogUnconverged] ++
        match molecule args with
        | Some mol => [EvGeometry mol (geometry api mol (engine_at api args opts eng 1))]
        | None => []
        end ++
        [EvToFile (cerr_wfn api c) (get_scratch_filename api (cerr_wfn api c) 180);
         EvSetOptions (restart_options args);
         EvLog Error LogMaxLoops].
Proof.
  intros HM.
  set (args' := mkArgs (initial_iterations args) (increment_iteration args) 1
                       (molecule args) (method args)).
  set (s := init_state args opts eng).
  assert (Hbody : exists r st, body api args s = Done r st /\
                               body api args' s = Done r st /\
                               invocations (trace st) = 1%nat).
  { pose proof (attempt_fields api args s) as (_ & _ & _ & Hn & _ & Htr).
    unfold body.
    change (attempt api args' s) with (attempt api args s).
    destruct (attempt api args s) as [[e w h|[c|x]] st1]; cbn [fst snd] in *.
    - eexists _, _. split; [reflexivity|]. split; [reflexivity|].
      cbn [emit trace]. rewrite Htr. reflexivity.
    - change (recover api args' c st1) with (recover api args c st1).
      pose proof (recover_fields api args c st1) as (_ & _ & Hc & _ & Htr').
      change (max_loop_count args') with 1.
      replace (max_loop_count args <=? loop_count (recover api args c st1))
        with true by (symmetry; apply Z.leb_le; rewrite Hc, Hn; simpl; lia).
      replace (1 <=? loop_count (recover api args c st1))
        with true by (symmetry; apply Z.leb_le; rewrite Hc, Hn; simpl; lia).
      eexists _, _. split; [reflexivity|]. split; [reflexivity|].
      cbn [emit trace]. rewrite Htr', Htr.
      unfold invocations, outcomes. rewrite !omap_app, !length_app.
      destruct (molecule args); reflexivity.
    - eexists _, _. split; [reflexivity|]. split; [reflexivity|].
      rewrite Htr. reflexivity. }
  destruct Hbody as (r & st & Hb & Hb' & Hinv).
  assert (Hrun : psi4_optimize api args opts eng = Some (r, st)).
  { unfold psi4_optimize, psi4_optimize_fuel, enough_fuel. cbn [loop].
    fold s. rewrite Hb. reflexivity. }
  split.
  { rewrite Hrun. unfold psi4_optimize, psi4_optimize_fuel, enough_fuel. cbn [loop].
    change (init_state args' opts eng) with s. rewrite Hb'. reflexivity. }
  exists r, st. split; [exact Hrun|]. split; [exact Hinv|].
  destruct (done_turn_events api args s r st Hb) as (_ & Hr & Htr).
  cbn zeta in Hr, Htr.
  change (optimize api (method args) (options s) (engine s)).1
    with (outcome_at api args opts eng 0) in Hr, Htr.
  change (optimize api (method args) (options s) (engine s)).2
    with (engine_at api args opts eng 1) in Htr.
  change (options s) with (set_options_map (initial_options args) opts) in Htr.
  change (loop_count s) with 0 in Htr.
  change (trace s) with [EvSetOptions (initial_options args)] in Htr.
  split.
  { rewrite Htr. unfold outcomes. rewrite !omap_app. simpl.
    destruct (outcome_at api args opts eng 0) as [e w h|[c|x]];
      destruct (molecule args); reflexivity. }
  split; [exact Hr|].
  intros c Hc. rewrite Hc in Hr, Htr. split; [exact Hr|].
  apply body_done_inv in Hb
    as [(e & w & h & Ho & _)|[(x & Ho & _)|(c' & Ho & _ & -> & _)]].
  - pose proof (attempt_fields api args s) as (Ho' & _). cbn zeta in Ho'.
    change (optimize api (method args) (options s) (engine s)).1
      with (outcome_at api args opts eng 0) in Ho'. congruence.
  - pose proof (attempt_fields api args s) as (Ho' & _). cbn zeta in Ho'.
    change (optimize api (method args) (options s) (engine s)).1
      with (outcome_at api args opts eng 0) in Ho'. congruence.
  - destruct (failed_turn_fields api args s c' Ho) as (Hopt & Hn & _ & _).
    cbn zeta in Hopt, Hn.
    change (loop_count (emit (EvLog Error LogMaxLoops)
                             (recover api args c' (attempt api args s).2)))
      with (loop_count (recover api args c' (attempt api args s).2)).
    change (options (emit (EvLog Error LogMaxLoops)
                          (recover api args c' (attempt api args s).2)))
      with (options (recover api args c' (attempt api args s).2)).
    rewrite Hn, Hopt. split; [reflexivity|]. split; [reflexivity|].
    split; [|exact Htr].
    rewrite Htr. unfold to_file_calls. rewrite !omap_app.
    destruct (molecule args); reflexivity.
Qed.

(** One turn of the loop under a larger ceiling: the same, unless it
    raised the convergence error. *)
Lemma body_larger_ceiling M' s :
  max_loop_count args <= M' ->
  match body api args s with
  | Continue s' =>
      body api (mkArgs (initial_iterations args) (increment_iteration args) M'
                       (molecule args) (method args)) s
      = Continue s'
  | Done (Raise (ConvergenceError _)) _ => True
  | Done r st =>
      body api (mkArgs (initial_iterations args) (increment_iteration args) M'
                       (molecule args) (method args)) s
      = Done r st
  end.
Proof.
  intros HM.
  set (args' := mkArgs (initial_iterations args) (increment_iteration args) M'
                       (molecule args) (method args)).
  unfold body. change (attempt api args' s) with (attempt api args s).
  destruct (attempt api args s) as [[e w h|[c|x]] st1].
  - unfold after_loop. cbn [molecule args']. destruct (molecule args); reflexivity.
  - change (recover api args' c st1) with (recover api args c st1).
    change (max_loop_count args') with M'.
    destruct (max_loop_count args <=? loop_count (recover api args c st1)) eqn:Hle;
      [exact I|].
    apply Z.leb_gt in Hle.
    replace (M' <=? loop_count (recover api args c st1)) with false
      by (symmetry; apply Z.leb_gt; lia).
    reflexivity.
  - reflexivity.
Qed.

(** Raising the ceiling does not change a call that returned or that
    raised an error other than a convergence error: the result and the
    final state, trace included, are the same. *)
Theorem larger_ceiling_same_result M' r st :
  psi4_optimize api args opts eng = Some (r, st) ->
  (forall c, r <> Raise (ConvergenceError c)) ->
  max_loop_count args <= M' ->
  psi4_optimize api
    (mkArgs (initial_iterations args) (increment_iteration args) M'
            (molecule args) (method args))
    opts eng
  = Some (r, st).
Proof.
  intros Hrun Hr HM.
  set (args' := mkArgs (initial_iterations args) (increment_iteration args) M'
                       (molecule args) (method args)).
  apply (psi4_optimize_fuel_stable api args' (enough_fuel args)).
  unfold psi4_optimize, psi4_optimize_fuel in *.
  change (init_state args' opts eng) with (init_state args opts eng).
  revert Hrun. generalize (init_state args opts eng). generalize (enough_fuel args).
  induction n as [|fuel IH]; intros s; [discriminate|]. cbn [loop].
  pose proof (body_larger_ceiling M' s HM) as Hb. fold args' in Hb.
  destruct (body api args s) as [s'|r1 st1].
  - rewrite Hb. apply IH.
  - intros [= -> ->]. destruct r as [e w t|[c|x]].
    + rewrite Hb. reflexivity.
    + destruct (Hr c). reflexivity.
    + rewrite Hb. reflexivity.
Qed.

(** The budget left behind: when the call ends, by a return or by an
    exception, [MAXITER] and [GEOM_MAXITER] hold [initial_iterations]
    if no attempt failed and [initial_iterations + increment_iteration]
    otherwise; nothing is restored, and a call that gives up has raised
    the budget before raising. *)
Theorem budget_left_behind :
  exists r st,
    psi4_optimize api args opts eng = Some (r, st) /\
    options st !! "MAXITER"%string
    = Some (OInt match failed_attempts (trace st) with
                 | O => initial_iterations args
                 | S _ => initial_iterations args + increment_iteration args
                 end) /\
    options st !! "GEOM_MAXITER"%string = options st !! "MAXITER"%string /\
    forall c, r = Raise (ConvergenceError c) ->
      options st !! "MAXITER"%string
      = Some (OInt (initial_iterations args + increment_iteration args)).
Proof.
  destruct (run_calls api args opts eng)
    as (r & st & n & Hrun & _ & _ & Hr & Hf & _).
  destruct (run_ends api args opts eng) as (r' & st' & _ & Hrun' & _ & _ & _ & Heff).
  rewrite Hrun in Hrun'. injection Hrun' as <- <-.
  exists r, st. split; [exact Hrun|].
  rewrite (options_ok _ _ _ _ Heff). split; [|split].
  - destruct (failed_attempts (trace st));
      unfold options_at, set_options_map; simpl;
      rewrite !lookup_insert; repeat case_decide; congruence.
  - destruct (failed_attempts (trace st));
      unfold options_at, set_options_map; simpl;
      rewrite !lookup_insert; repeat case_decide; congruence.
  - intros c ->. rewrite Hf.
    destruct (outcome_at api args opts eng n) as [e w h|[c'|x]].
    + unfold after_loop in Hr. destruct (molecule args); discriminate.
    + unfold options_at, set_options_map; simpl.
      rewrite !lookup_insert; repeat case_decide; congruence.
    + discriminate.
Qed.

End Closed.

(** ** The cells and the function *)

Section Cells.

Context {T : Psi4Types} (api : Psi4).

(** In the cell, after a first convergence error the retry is neither
    guarded nor used: an exception of the second call leaves the cell,
    convergence error included; if the second call converges its energy
    is dropped, [opt_energy] and [unconv] keep the values they had
    before the cell, the energy logged is that earlier [opt_energy],
    and the cell ends in a [NameError] when there is none. *)
Theorem restart_cell_discards_retry nb c :
  (optimize api "hf/cc-pvdz" (nb_options nb) (nb_engine nb)).1
  = Raised (ConvergenceError c) ->
  let eng1 := (optimize api "hf/cc-pvdz" (nb_options nb) (nb_engine nb)).2 in
  let retry := optimize api "hf/cc-pvdz"
                 (set_options_map restart_cell_options (nb_options nb)) eng1 in
  opt_energy (restart_cell api nb).2 = opt_energy nb /\
  unconv (restart_cell api nb).2 = unconv nb /\
  unconv_wfn (restart_cell api nb).2 = Some (cerr_wfn api c) /\
  to_file_calls (nb_trace (restart_cell api nb).2)
  = to_file_calls (nb_trace nb)
    ++ [(cerr_wfn api c, get_scratch_filename api (cerr_wfn api c) 180)] /\
  match (restart_cell api nb).1 with
  | None =>
      exists e0 e w h,
        opt_energy nb = Some e0 /\ retry.1 = Converged e w h /\
        last (nb_trace (restart_cell api nb).2) = Some (EvLog Info (LogEnergy e0))
  | Some (NameError name) =>
      name = "opt_energy"%string /\ opt_energy nb = None /\
      exists e w h, retry.1 = Converged e w h
  | Some (EngineRaised exn) => retry.1 = Raised exn
  end.
Proof.
  intros Hfirst. cbn zeta. unfold restart_cell.
  destruct (optimize api "hf/cc-pvdz" (nb_options nb) (nb_engine nb)) as [out eng1].
  cbn [fst snd] in *. subst out.
  destruct (optimize api "hf/cc-pvdz"
              (set_options_map restart_cell_options (nb_options nb)) eng1)
    as [[e w h|exn] eng2]; cbn [fst snd].
  - destruct (opt_energy nb) as [e0|] eqn:He0; cbn [fst snd opt_energy unconv unconv_wfn nb_trace].
    + repeat split.
      * unfold to_file_calls. rewrite !omap_app, !app_nil_r. reflexivity.
      * exists e0, e, w, h. repeat split. apply last_snoc.
    + repeat split; eauto.
      unfold to_file_calls. rewrite !omap_app, !app_nil_r. reflexivity.
  - cbn [fst snd opt_energy unconv unconv_wfn nb_trace]. repeat split.
    unfold to_file_calls. rewrite !omap_app, !app_nil_r. reflexivity.
Qed.

(** The function does what the two cells do: called with the budget 2,
    the increment 98 and the ceiling 2, [psi4_optimize] makes the same
    calls of [psi4.optimize] as the two cells run in order, under the
    same options and on the same states of the engine, leaves the same
    options behind, and raises an exception of the engine exactly when
    the cells raise it. *)
Theorem function_generalises_cells nb :
  let cells := restart_cell api (budget_cell nb) in
  exists r st,
    psi4_optimize api cell_args (nb_options nb) (nb_engine nb) = Some (r, st) /\
    outcomes (nb_trace cells.2) = outcomes (nb_trace nb) ++ outcomes (trace st) /\
    options_seen (nb_trace cells.2)
    = options_seen (nb_trace nb) ++ options_seen (trace st) /\
    nb_engine cells.2 = engine st /\
    nb_options cells.2 = options st /\
    forall exn, cells.1 = Some (EngineRaised exn) <-> r = Raise exn.
Proof.
  cbn zeta. unfold psi4_optimize, psi4_optimize_fuel.
  change (enough_fuel cell_args) with 3%nat.
  unfold restart_cell, budget_cell. cbn [nb_options nb_engine nb_trace opt_energy].
  cbn [loop]. unfold body at 1. unfold attempt at 1.
  change (options (emit _ (init_state cell_args (nb_options nb) (nb_engine nb))))
    with (set_options_map budget_cell_options (nb_options nb)).
  change (engine (emit _ (init_state cell_args (nb_options nb) (nb_engine nb))))
    with (nb_engine nb).
  change (method cell_args) with "hf/cc-pvdz"%string.
  destruct (optimize api "hf/cc-pvdz"
              (set_options_map budget_cell_options (nb_options nb)) (nb_engine nb))
    as [[e w h|[c|x]] eng1].
  - eexists _, _. split; [reflexivity|].
    cbn [fst snd nb_trace nb_engine nb_options emit set_engine trace engine options
         init_state set_options].
    unfold outcomes, options_seen, after_loop. rewrite !omap_app. simpl.
    rewrite !app_nil_r.
    repeat split; intros; congruence.
  - change (max_loop_count cell_args <=? _) with false. cbn iota.
    unfold body, attempt.
    change (options (emit _ (recover api cell_args c _)))
      with (set_options_map restart_cell_options
              (set_options_map budget_cell_options (nb_options nb))).
    change (engine (emit _ (recover api cell_args c _))) with eng1.
    change (method cell_args) with "hf/cc-pvdz"%string.
    destruct (optimize api "hf/cc-pvdz"
                (set_options_map restart_cell_options
                   (set_options_map budget_cell_options (nb_options nb))) eng1)
      as [[e' w' h'|[c'|x']] eng2].
    + eexists _, _. split; [reflexivity|].
      destruct (opt_energy nb);
        cbn [fst snd nb_trace nb_engine nb_options];
        unfold outcomes, options_seen, after_loop; rewrite !omap_app; simpl;
        rewrite !app_nil_r, <- ?app_assoc;
        repeat split; intros; congruence.
    + match goal with
      | |- context [if ?b then _ else _] => replace b with true by reflexivity
      end.
      eexists _, _. split; [reflexivity|].
      cbn [fst snd nb_trace nb_engine nb_options].
      unfold outcomes, options_seen. rewrite !omap_app. simpl.
      rewrite !app_nil_r, <- ?app_assoc.
      split; [reflexivity|]. split; [reflexivity|]. split; [reflexivity|]. split.
      * symmetry. apply (restart_options_idem cell_args).
      * intros exn. split; intros [= <-]; reflexivity.
    + eexists _, _. split; [reflexivity|].
      cbn [fst snd nb_trace nb_engine nb_options].
      unfold outcomes, options_seen. rewrite !omap_app. simpl.
      rewrite !app_nil_r, <- ?app_assoc.
      repeat split; intros [= <-]; reflexivity.
  - eexists _, _. split; [reflexivity|].
    cbn [fst snd nb_trace nb_engine nb_options].
    unfold outcomes, options_seen. rewrite !omap_app. simpl.
      rewrite !app_nil_r, <- ?app_assoc.
    repeat split; intros [= <-]; reflexivity.
Qed.

End Cells.

(** ** Further runs on the stub engines *)

(** The budgets of the four calls of a run whose first three calls fail
    to converge. *)
Lemma budget_during_attempt_witness :
  exists r st,
    psi4_optimize (Stub.scripted (Stub.converges_after 3))
                  (Stub.notebook_args 20 None) ∅ 0%nat = Some (r, st) /\
    length (budgets (trace st)) = invocations (trace st) /\
    forall k b, budgets (trace st) !! k = Some b ->
      b = Some (OInt (match k with O => 10 | S _ => 10 + 10 end)).
Proof.
  exact (budget_during_attempt (Stub.scripted (Stub.converges_after 3))
           (Stub.notebook_args 20 None) ∅ 0%nat).
Defined.

(** The options of the calls of a run with one failed attempt, from a
    dictionary that holds [GUESS] and another option. *)
Lemma options_during_calls_witness :
  exists r st,
    psi4_optimize (Stub.scripted (Stub.converges_after 1))
                  (Stub.notebook_args 20 None)
                  {["GUESS"%string := OStr "sad"; "PRINT"%string := OInt 2]} 0%nat
    = Some (r, st) /\
    length (options_seen (trace st)) = invocations (trace st) /\
    forall k (o : Options), options_seen (trace st) !! k = Some o ->
      o !! "GEOM_MAXITER"%string = o !! "MAXITER"%string /\
      o !! "GUESS"%string
      = match k with
        | O => ({["GUESS"%string := OStr "sad"; "PRINT"%string := OInt 2]} : Options)
                 !! "GUESS"%string
        | S _ => Some (OStr "read")
        end /\
      forall key : string,
        key <> "MAXITER"%string -> key <> "GEOM_MAXITER"%string ->
        key <> "GUESS"%string ->
        o !! key
        = ({["GUESS"%string := OStr "sad"; "PRINT"%string := OInt 2]} : Options) !! key.
Proof.
  exact (options_during_calls (Stub.scripted (Stub.converges_after 1))
           (Stub.notebook_args 20 None)
           {["GUESS"%string := OStr "sad"; "PRINT"%string := OInt 2]} 0%nat).
Defined.

(** The snapshots of a run with a molecule and two failed attempts. *)
Lemma snapshots_of_failed_calls_witness :
  molecule (Stub.notebook_args 20 (Some tt)) = Some tt /\
  exists r st,
    psi4_optimize (Stub.scripted (Stub.converges_after 2))
                  (Stub.notebook_args 20 (Some tt)) ∅ 0%nat = Some (r, st) /\
    molecule_traj st
    = map (fun j => engine_at (Stub.scripted (Stub.converges_after 2))
                              (Stub.notebook_args 20 (Some tt)) ∅ 0%nat (S j))
          (seq 0 (failed_attempts (trace st))).
Proof.
  split; [reflexivity|].
  apply (snapshots_of_failed_calls (Stub.scripted (Stub.converges_after 2))
           (Stub.notebook_args 20 (Some tt)) ∅ 0%nat tt).
  reflexivity.
Defined.

(** Three failed attempts, then a call that converges, under the
    ceiling 20. *)
Lemma recovers_after_failures_witness :
  (forall j, (j < 3)%nat ->
     exists c, outcome_at (Stub.scripted (Stub.converges_after 3))
                          (Stub.notebook_args 20 None) ∅ 0%nat j
               = Raised (ConvergenceError c)) /\
  outcome_at (Stub.scripted (Stub.converges_after 3))
             (Stub.notebook_args 20 None) ∅ 0%nat 3
  = Converged (-76) 3%nat 3%nat /\
  (3%nat = O \/ Z.of_nat 3 < 20) /\
  exists st,
    psi4_optimize (Stub.scripted (Stub.converges_after 3))
                  (Stub.notebook_args 20 None) ∅ 0%nat
    = Some (Return (-76) 3%nat (PsiHistory 3%nat), st) /\
    loop_count st = 3 /\
    invocations (trace st) = 4%nat /\
    length (to_file_calls (trace st)) = 3%nat.
Proof.
  assert (Hfail : forall j, (j < 3)%nat ->
            exists c, outcome_at (Stub.scripted (Stub.converges_after 3))
                                 (Stub.notebook_args 20 None) ∅ 0%nat j
                      = Raised (ConvergenceError c)).
  { intros [|[|[|j]]] Hj; [eexists; reflexivity..|lia]. }
  split; [exact Hfail|]. split; [reflexivity|]. split; [right; lia|].
  apply (recovers_after_failures (Stub.scripted (Stub.converges_after 3))
           (Stub.notebook_args 20 None) ∅ 0%nat 3 (-76) 3%nat 3%nat);
    [exact Hfail|reflexivity|right; simpl; lia].
Defined.

(** The engine that never converges, under the ceiling 3. *)
Lemma gives_up_at_ceiling_witness :
  (forall j, (j < 3)%nat ->
     exists c, outcome_at (Stub.scripted Stub.never_converges)
                          (Stub.notebook_args 3 None) ∅ 0%nat j
               = Raised (ConvergenceError c)) /\
  exists c st,
    psi4_optimize (Stub.scripted Stub.never_converges)
                  (Stub.notebook_args 3 None) ∅ 0%nat
    = Some (Raise (ConvergenceError c), st) /\
    outcome_at (Stub.scripted Stub.never_converges)
               (Stub.notebook_args 3 None) ∅ 0%nat 2
    = Raised (ConvergenceError c) /\
    invocations (trace st) = 3%nat.
Proof.
  assert (Hfail : forall j, (j < 3)%nat ->
            exists c, outcome_at (Stub.scripted Stub.never_converges)
                                 (Stub.notebook_args 3 None) ∅ 0%nat j
                      = Raised (ConvergenceError c)).
  { intros j _. eexists. reflexivity. }
  split; [exact Hfail|].
  apply (gives_up_at_ceiling (Stub.scripted Stub.never_converges)
           (Stub.notebook_args 3 None) ∅ 0%nat).
  exact Hfail.
Defined.

(** The call of the notebook, without a molecule, after one failed
    attempt. *)
Lemma without_molecule_witness :
  molecule (Stub.notebook_args 20 None) = None /\
  exists r st,
    psi4_optimize (Stub.scripted (Stub.converges_after 1))
                  (Stub.notebook_args 20 None) ∅ 0%nat = Some (r, st) /\
    geometry_calls (trace st) = [] /\
    molecule_traj st = [] /\
    forall e w t, r = Return e w t ->
      exists h, t = PsiHistory h /\
                last (outcomes (trace st)) = Some (Converged e w h).
Proof.
  split; [reflexivity|].
  apply (without_molecule (Stub.scripted (Stub.converges_after 1))
           (Stub.notebook_args 20 None) ∅ 0%nat).
  reflexivity.
Defined.

(** The ceiling 0 gives the run of the ceiling 1: on the engine that
    never converges, one call, one write, and the error of that call. *)
Lemma ceiling_below_one_witness :
  max_loop_count (Stub.notebook_args 0 None) <= 1 /\
  psi4_optimize (Stub.scripted Stub.never_converges)
                (Stub.notebook_args 0 None) ∅ 0%nat
  = psi4_optimize (Stub.scripted Stub.never_converges)
                  (Stub.notebook_args 1 None) ∅ 0%nat /\
  exists r st,
    psi4_optimize (Stub.scripted Stub.never_converges)
                  (Stub.notebook_args 0 None) ∅ 0%nat = Some (r, st) /\
    invocations (trace st) = 1%nat /\
    r = Raise (ConvergenceError 0%nat) /\
    loop_count st = 1 /\
    to_file_calls (trace st) = [(0%nat, "psi.180"%string)].
Proof.
  split; [simpl; lia|].
  destruct (ceiling_below_one (Stub.scripted Stub.never_converges)
              (Stub.notebook_args 0 None) ∅ 0%nat)
    as (Heq & r & st & Hrun & Hinv & _ & _ & Hfail); [simpl; lia|].
  split; [exact Heq|].
  destruct (Hfail 0%nat eq_refl) as (Hr & Hn & _ & Hfile & _).
  exists r, st. repeat split; assumption.
Defined.

(** C6 on a run whose first three calls fail to converge and whose
    fourth converges: three writes, of the wavefunctions of the three
    errors, to the filename of unit 180. *)
Lemma persisted_state_writes_witness :
  exists r st n,
    psi4_optimize (Stub.scripted (Stub.converges_after 3))
                  (Stub.notebook_args 20 None) ∅ 0%nat = Some (r, st) /\
    n = 3%nat /\
    r = Return (-76) 3%nat (PsiHistory 3%nat) /\
    to_file_calls (trace st)
    = [(0%nat, "psi.180"%string); (1%nat, "psi.180"%string);
       (2%nat, "psi.180"%string)] /\
    length (to_file_calls (trace st)) = failed_attempts (trace st).
Proof.
  destruct (persisted_state_writes (Stub.scripted (Stub.converges_after 3))
              (Stub.notebook_args 20 None) ∅ 0%nat)
    as (r & st & n & Hrun & Ho & Hbefore & Hr & Hfile & _ & Hlen & Hcount & _).
  assert (Hn : n = 3%nat).
  { destruct n as [|[|[|[|n]]]]; [| | |reflexivity|].
    1-3: vm_compute in Hrun; injection Hrun as <- <-;
         vm_compute in Ho; discriminate.
    destruct (Hbefore 3%nat ltac:(lia)) as [c Hc]. discriminate. }
  subst n. exists r, st, 3%nat.
  split; [exact Hrun|]. split; [reflexivity|]. split; [|split; [exact Hfile|exact Hlen]].
  vm_compute in Hrun. injection Hrun as <- _. reflexivity.
Defined.

(** A run that returns after three failed attempts under the ceiling 4
    is the same under the ceiling 20. *)
Lemma larger_ceiling_same_result_witness :
  exists r st,
    psi4_optimize (Stub.scripted (Stub.converges_after 3))
                  (Stub.notebook_args 4 None) ∅ 0%nat = Some (r, st) /\
    (forall c, r <> Raise (ConvergenceError c)) /\
    max_loop_count (Stub.notebook_args 4 None) <= 20 /\
    psi4_optimize (Stub.scripted (Stub.converges_after 3))
                  (Stub.notebook_args 20 None) ∅ 0%nat = Some (r, st).
Proof.
  destruct (psi4_optimize_returns (Stub.scripted (Stub.converges_after 3))
              (Stub.notebook_args 4 None) ∅ 0%nat) as (r & st & Hrun).
  assert (Hr : forall c, r <> Raise (ConvergenceError c)).
  { intros c ->. vm_compute in Hrun. discriminate. }
  exists r, st. split; [exact Hrun|]. split; [exact Hr|]. split; [simpl; lia|].
  apply (larger_ceiling_same_result (Stub.scripted (Stub.converges_after 3))
           (Stub.notebook_args 4 None) ∅ 0%nat 20 r st Hrun Hr).
  simpl; lia.
Defined.

(** The cell on an engine whose first call fails to converge and whose
    second call converges, with [opt_energy] bound to -75 by an earlier
    cell: -75 is what the cell logs and keeps. *)
Lemma restart_cell_discards_retry_witness :
  (optimize (Stub.scripted (Stub.converges_after 1)) "hf/cc-pvdz" ∅ 0%nat).1
  = Raised (ConvergenceError 0%nat) /\
  opt_energy (restart_cell (Stub.scripted (Stub.converges_after 1))
                (mkNotebook (T:=Stub.types) ∅ 0%nat (Some (-75)) None None [])).2
  = Some (-75) /\
  (restart_cell (Stub.scripted (Stub.converges_after 1))
     (mkNotebook (T:=Stub.types) ∅ 0%nat (Some (-75)) None None [])).1 = None /\
  last (nb_trace (restart_cell (Stub.scripted (Stub.converges_after 1))
                    (mkNotebook (T:=Stub.types) ∅ 0%nat (Some (-75)) None None [])).2)
  = Some (EvLog Info (LogEnergy (-75))).
Proof.
  split; [reflexivity|].
  destruct (restart_cell_discards_retry (Stub.scripted (Stub.converges_after 1))
              (mkNotebook (T:=Stub.types) ∅ 0%nat (Some (-75)) None None []) 0%nat eq_refl)
    as (He & _ & _ & _ & _).
  split; [exact He|]. split; vm_compute; reflexivity.
Defined.

(** The budget left by a call that gives up under the ceiling 2. *)
Lemma budget_left_behind_witness :
  exists r st,
    psi4_optimize (Stub.scripted Stub.never_converges)
                  (Stub.notebook_args 2 None) ∅ 0%nat = Some (r, st) /\
    options st !! "MAXITER"%string
    = Some (OInt match failed_attempts (trace st) with
                 | O => 10
                 | S _ => 10 + 10
                 end) /\
    options st !! "GEOM_MAXITER"%string = options st !! "MAXITER"%string /\
    forall c, r = Raise (ConvergenceError c) ->
      options st !! "MAXITER"%string = Some (OInt (10 + 10)).
Proof.
  exact (budget_left_behind (Stub.scripted Stub.never_converges)
           (Stub.notebook_args 2 None) ∅ 0%nat).
Defined.
